(** * Student API (FastAPI + MongoDB): a shallow embedding of [app.py]

    The file follows the layout of [app.py]:
    - the Python and BSON values the application exchanges with its
      collaborators (request JSON, BSON documents, [ObjectId]);
    - the pydantic models ([AddressModel], [StudentModel],
      [UpdateStudentModel], the response models);
    - the [student_collection] primitives the handlers call
      ([insert_one], [find_one], [find], [update_one], [delete_one]);
    - the five handlers, written in a state-and-exception monad over the
      collection;
    - the routes: request validation, handler, response model, status code.

    Theorems about the handlers and routes come after the definitions. *)

From Stdlib Require Import ZArith List String Ascii Bool Lia.
From Stdlib Require Import Strings.Byte.
From Stdlib Require Import Floats.SpecFloat.
Import ListNotations.

Set Warnings "-register-all".

Local Open Scope string_scope.
Local Open Scope Z_scope.

(* ===================================================================== *)
(** ** Python dictionaries *)
(* ===================================================================== *)

(** A [dict] with [str] keys keeps insertion order; it is an association
    list in which a key occurs once.  Assigning to a key that is present
    replaces the value in place, assigning to a new key appends. *)
Module Dict.

Definition t (V : Type) : Type := list (string * V).

Fixpoint get {V} (k : string) (d : t V) : option V :=
  match d with
  | [] => None
  | (k', v) :: d' => if String.eqb k k' then Some v else get k d'
  end.

Fixpoint set {V} (k : string) (v : V) (d : t V) : t V :=
  match d with
  | [] => [(k, v)]
  | (k', v') :: d' =>
      if String.eqb k k' then (k', v) :: d' else (k', v') :: set k v d'
  end.

Fixpoint remove {V} (k : string) (d : t V) : t V :=
  match d with
  | [] => []
  | (k', v') :: d' =>
      if String.eqb k k' then remove k d' else (k', v') :: remove k d'
  end.

Definition keys {V} (d : t V) : list string := map fst d.

End Dict.

(** [x in xs] for a list of strings. *)
Definition str_in (x : string) (xs : list string) : bool :=
  existsb (String.eqb x) xs.

(* ===================================================================== *)
(** ** bson.ObjectId *)
(* ===================================================================== *)

Module ObjectId.

(** An [ObjectId] wraps its [binary] value, a [bytes] object. *)
Record t : Type := mk { binary : list byte }.

Definition eqb (a b : t) : bool :=
  if list_eq_dec Byte.byte_eq_dec (binary a) (binary b) then true else false.

(** [binascii.hexlify]: two lower-case hexadecimal digits per byte. *)
Definition hexdigit (n : N) : ascii :=
  match n with
  | 0%N => "0" | 1%N => "1" | 2%N => "2" | 3%N => "3"
  | 4%N => "4" | 5%N => "5" | 6%N => "6" | 7%N => "7"
  | 8%N => "8" | 9%N => "9" | 10%N => "a" | 11%N => "b"
  | 12%N => "c" | 13%N => "d" | 14%N => "e" | _ => "f"
  end%char.

Fixpoint hexlify (bs : list byte) : string :=
  match bs with
  | [] => EmptyString
  | b :: bs' =>
      String (hexdigit (Byte.to_N b / 16))
        (String (hexdigit (Byte.to_N b mod 16)) (hexlify bs'))
  end.

(** The value of a hexadecimal digit, upper or lower case. *)
Definition digit_value (c : ascii) : option N :=
  let n := N_of_ascii c in
  if ((48 <=? n) && (n <=? 57))%N then Some (n - 48)%N
  else if ((97 <=? n) && (n <=? 102))%N then Some (n - 87)%N
  else if ((65 <=? n) && (n <=? 70))%N then Some (n - 55)%N
  else None.

(** ASCII white space: tab, line feed, vertical tab, form feed,
    carriage return, space. *)
Definition isspace (c : ascii) : bool :=
  let n := N_of_ascii c in
  (((9 <=? n) && (n <=? 13)) || (n =? 32))%N.

Definition byte_of_nibbles (top bot : N) : byte :=
  match Byte.of_N (top * 16 + bot) with
  | Some b => b
  | None => x00
  end.

(** [bytes.fromhex]: pairs of hexadecimal digits; white space is skipped
    in front of a pair and at the end, never inside a pair.  [None] is
    the [ValueError]. *)
Fixpoint fromhex (s : string) : option (list byte) :=
  match s with
  | EmptyString => Some []
  | String c s' =>
      if isspace c then fromhex s'
      else
        match digit_value c, s' with
        | Some top, String d s'' =>
            match digit_value d with
            | Some bot =>
                match fromhex s'' with
                | Some bs => Some (byte_of_nibbles top bot :: bs)
                | None => None
                end
            | None => None
            end
        | _, _ => None
        end
  end.

(** [ObjectId(oid)] for a [str] argument ([ObjectId.__validate]): the
    string must have length 24 and be accepted by [bytes.fromhex];
    [None] stands for [InvalidId]. *)
Definition of_str (oid : string) : option t :=
  if (String.length oid =? 24)%nat then
    match fromhex oid with
    | Some bs => Some (mk bs)
    | None => None
    end
  else None.

(** [str(oid)]. *)
Definition to_str (oid : t) : string := hexlify (binary oid).

End ObjectId.

(* ===================================================================== *)
(** ** Values on the wire and in the collection *)
(* ===================================================================== *)

(** A request or response body after [json.loads] / before [json.dumps]:
    [None], [bool], [int], [float], [str], [list], [dict]. *)
Inductive json : Type :=
| JNull
| JBool (b : bool)
| JInt (z : Z)
| JFloat (f : spec_float)
| JStr (s : string)
| JList (l : list json)
| JDict (d : list (string * json)).

(** The Python objects the handlers hand to the driver and get back from
    it.  [model_dump] only produces [None], [int], [str] and nested
    [dict]s; the driver adds [ObjectId]. *)
Inductive value : Type :=
| VNone
| VInt (z : Z)
| VStr (s : string)
| VObjectId (oid : ObjectId.t)
| VDict (d : list (string * value)).

(** A document of the collection. *)
Definition document : Type := Dict.t value.

(** Equality of values as the server compares them: embedded documents
    are equal when they have the same fields in the same order. *)
Fixpoint value_eqb (a b : value) : bool :=
  match a, b with
  | VNone, VNone => true
  | VInt x, VInt y => (x =? y)
  | VStr x, VStr y => String.eqb x y
  | VObjectId x, VObjectId y => ObjectId.eqb x y
  | VDict x, VDict y =>
      (fix fields (x y : list (string * value)) : bool :=
         match x, y with
         | [], [] => true
         | (k, v) :: x', (k', v') :: y' =>
             String.eqb k k' && value_eqb v v' && fields x' y'
         | _, _ => false
         end) x y
  | _, _ => false
  end.

Definition document_eqb (a b : document) : bool :=
  value_eqb (VDict a) (VDict b).

(** What Python leaves to its runtime and to pydantic's lax mode: the
    conversions whose exact tables live outside [app.py]. *)
Class Runtime : Type := {
  (** pydantic, lax mode: a [str] input for an [int] field. *)
  str_as_int : string -> option Z;
  (** pydantic, lax mode: a finite [float] input for an [int] field. *)
  float_as_int : spec_float -> option Z;
  (** the builtin [str] on an object parsed from JSON. *)
  json_str : json -> string;
  (** the builtin [str] on an object that is neither [str] nor [ObjectId]. *)
  value_repr : value -> string
}.

(** [str(v)]. *)
Definition str {rt : Runtime} (v : value) : string :=
  match v with
  | VStr s => s
  | VObjectId oid => ObjectId.to_str oid
  | _ => value_repr v
  end.

(* ===================================================================== *)
(** ** pydantic: validation of request bodies *)
(* ===================================================================== *)

Inductive ErrorType : Type :=
| missing
| string_type
| int_type
| int_parsing
| int_from_float
| finite_number
| model_attributes_type.

(** One entry of a [ValidationError]: the location and the kind. *)
Definition ErrorDetails : Type := (list string * ErrorType)%type.

Inductive validated (A : Type) : Type :=
| Valid (a : A)
| Invalid (errors : list ErrorDetails).
Arguments Valid {A} a.
Arguments Invalid {A} errors.

Definition is_valid {A} (r : validated A) : bool :=
  match r with Valid _ => true | Invalid _ => false end.

Definition validated_map {A B} (f : A -> B) (r : validated A) : validated B :=
  match r with Valid a => Valid (f a) | Invalid es => Invalid es end.

(** All fields are validated and their errors collected, in field order. *)
Definition validated_pair {A B} (a : validated A) (b : validated B)
  : validated (A * B) :=
  match a, b with
  | Valid x, Valid y => Valid (x, y)
  | Valid _, Invalid es => Invalid es
  | Invalid es, Valid _ => Invalid es
  | Invalid es, Invalid es' => Invalid (es ++ es')
  end.

Definition at_loc {A} (key : string) (r : validated A) : validated A :=
  match r with
  | Valid a => Valid a
  | Invalid es => Invalid (map (fun e => (key :: fst e, snd e)) es)
  end.

(** A field without a default is required: its key must be in the input. *)
Definition required {A} (key : string) (validator : json -> validated A)
    (d : Dict.t json) : validated A :=
  match Dict.get key d with
  | Some x => at_loc key (validator x)
  | None => Invalid [([key], missing)]
  end.

(** A field with [alias] and a default under [populate_by_name=True]: the
    alias is looked up first, then the field name, then the default. *)
Definition with_default {A} (alias key : string) (default : A)
    (validator : json -> validated A) (d : Dict.t json) : validated A :=
  match Dict.get alias d with
  | Some x => at_loc alias (validator x)
  | None =>
      match Dict.get key d with
      | Some x => at_loc alias (validator x)
      | None => Valid default
      end
  end.

(** [str]: only a [str] input is accepted. *)
Definition validate_str (x : json) : validated string :=
  match x with
  | JStr s => Valid s
  | _ => Invalid [([], string_type)]
  end.

(** [int], lax mode: [int]; [bool] as 0 or 1; a [float] or a [str] that
    pydantic converts. *)
Definition validate_int {rt : Runtime} (x : json) : validated Z :=
  match x with
  | JInt z => Valid z
  | JBool b => Valid (if b then 1 else 0)
  | JFloat S754_nan => Invalid [([], finite_number)]
  | JFloat (S754_infinity _) => Invalid [([], finite_number)]
  | JFloat f =>
      match float_as_int f with
      | Some z => Valid z
      | None => Invalid [([], int_from_float)]
      end
  | JStr s =>
      match str_as_int s with
      | Some z => Valid z
      | None => Invalid [([], int_parsing)]
      end
  | _ => Invalid [([], int_type)]
  end.

(** [Optional[T]]: [None] is accepted, anything else goes to [T]. *)
Definition validate_optional {A} (validator : json -> validated A) (x : json)
  : validated (option A) :=
  match x with
  | JNull => Valid None
  | _ => validated_map Some (validator x)
  end.

(** [PyObjectId = Annotated[str, BeforeValidator(str)]]: the input goes
    through [str] first, so every input is accepted. *)
Definition PyObjectId {rt : Runtime} (x : json) : validated string :=
  validate_str (JStr (match x with JStr s => s | _ => json_str x end)).

(** [model_dump]: the fields that are not excluded, under their keys.  An
    entry is (field name, key in the output, value). *)
Definition dump_fields (keep : string -> bool)
    (fields : list (string * string * value)) : Dict.t value :=
  map (fun f => (snd (fst f), snd f))
      (filter (fun f => keep (fst (fst f))) fields).

Definition value_of_option {A} (f : A -> value) (o : option A) : value :=
  match o with Some a => f a | None => VNone end.

(** Validation of a Python object a handler returns (a document of the
    collection) against a response model; [None] is the
    [ValidationError].  The same lax rules apply: a [str] field takes a
    [str], an [int] field an [int] or a [str] pydantic converts. *)
Definition str_of_value (v : value) : option string :=
  match v with VStr s => Some s | _ => None end.

Definition int_of_value {rt : Runtime} (v : value) : option Z :=
  match v with
  | VInt z => Some z
  | VStr s => str_as_int s
  | _ => None
  end.

Definition required_value {A} (key : string) (validator : value -> option A)
    (d : Dict.t value) : option A :=
  match Dict.get key d with
  | Some v => validator v
  | None => None
  end.

(** *** [AddressModel] *)
Module AddressModel.

Record t : Type := mk {
  city : string;
  country : string;
  model_fields_set : list string
}.

Definition validate (x : json) : validated t :=
  match x with
  | JDict d =>
      validated_map (fun p => mk (fst p) (snd p) ["city"; "country"])
        (validated_pair (required "city" validate_str d)
                        (required "country" validate_str d))
  | _ => Invalid [([], model_attributes_type)]
  end.

Definition model_dump (exclude_unset : bool) (a : t) : Dict.t value :=
  dump_fields
    (fun f => negb exclude_unset || str_in f (model_fields_set a))
    [ ("city", "city", VStr (city a));
      ("country", "country", VStr (country a)) ].

Definition from_value (v : value) : option t :=
  match v with
  | VDict d =>
      match required_value "city" str_of_value d,
            required_value "country" str_of_value d with
      | Some ci, Some co => Some (mk ci co ["city"; "country"])
      | _, _ => None
      end
  | _ => None
  end.

Definition to_json (a : t) : json :=
  JDict [("city", JStr (city a)); ("country", JStr (country a))].

End AddressModel.

(** *** [StudentModel] *)
Module StudentModel.

Record t : Type := mk {
  id : option string;
  name : string;
  age : Z;
  address : AddressModel.t
}.

Definition validate {rt : Runtime} (x : json) : validated t :=
  match x with
  | JDict d =>
      validated_map
        (fun p => mk (fst p) (fst (snd p)) (fst (snd (snd p)))
                     (snd (snd (snd p))))
        (validated_pair
           (with_default "_id" "id" None (validate_optional PyObjectId) d)
           (validated_pair (required "name" validate_str d)
              (validated_pair (required "age" validate_int d)
                 (required "address" AddressModel.validate d))))
  | _ => Invalid [([], model_attributes_type)]
  end.

(** [model_dump(by_alias=..., exclude=[...])]: [exclude] lists field
    names; [by_alias] renames [id] to its alias [_id]. *)
Definition model_dump (by_alias : bool) (exclude : list string) (s : t)
  : Dict.t value :=
  dump_fields
    (fun f => negb (str_in f exclude))
    [ ("id", if by_alias then "_id" else "id", value_of_option VStr (id s));
      ("name", "name", VStr (name s));
      ("age", "age", VInt (age s));
      ("address", "address", VDict (AddressModel.model_dump false (address s))) ].

End StudentModel.

(** *** [UpdateStudentModel] *)
Module UpdateStudentModel.

(** [name: Optional[str]], [age: Optional[int]],
    [address: Optional[AddressModel]], none with a default: each key is
    required and its value may be [None]. *)
Record t : Type := mk {
  name : option string;
  age : option Z;
  address : option AddressModel.t;
  model_fields_set : list string
}.

Definition validate {rt : Runtime} (x : json) : validated t :=
  match x with
  | JDict d =>
      validated_map
        (fun p => mk (fst p) (fst (snd p)) (snd (snd p))
                     ["name"; "age"; "address"])
        (validated_pair
           (required "name" (validate_optional validate_str) d)
           (validated_pair
              (required "age" (validate_optional validate_int) d)
              (required "address" (validate_optional AddressModel.validate) d)))
  | _ => Invalid [([], model_attributes_type)]
  end.

(** [model_dump(exclude_unset=...)]; nested models are dumped with the
    same flag. *)
Definition model_dump (exclude_unset : bool) (u : t) : Dict.t value :=
  dump_fields
    (fun f => negb exclude_unset || str_in f (model_fields_set u))
    [ ("name", "name", value_of_option VStr (name u));
      ("age", "age", value_of_option VInt (age u));
      ("address", "address",
        value_of_option
          (fun a => VDict (AddressModel.model_dump exclude_unset a))
          (address u)) ].

End UpdateStudentModel.

(* ===================================================================== *)
(** ** pydantic: response models *)
(* ===================================================================== *)

Module ListResponseStudent.

Record t : Type := mk {
  name : string;
  age : Z
}.

Definition from_value {rt : Runtime} (v : value) : option t :=
  match v with
  | VDict d =>
      match required_value "name" str_of_value d,
            required_value "age" int_of_value d with
      | Some n, Some a => Some (mk n a)
      | _, _ => None
      end
  | _ => None
  end.

Definition to_json (r : t) : json :=
  JDict [("name", JStr (name r)); ("age", JInt (age r))].

End ListResponseStudent.

(** A container holding a list of students: the response is an object
    with the key [data], not a top-level array. *)
Module StudentCollection.

Record t : Type := mk {
  data : list ListResponseStudent.t
}.

Fixpoint validate_items {rt : Runtime} (students : list document)
  : option (list ListResponseStudent.t) :=
  match students with
  | [] => Some []
  | d :: rest =>
      match ListResponseStudent.from_value (VDict d), validate_items rest with
      | Some r, Some rs => Some (r :: rs)
      | _, _ => None
      end
  end.

(** [StudentCollection(data=students)]. *)
Definition new {rt : Runtime} (students : list document) : option t :=
  match validate_items students with
  | Some rs => Some (mk rs)
  | None => None
  end.

Definition to_json (r : t) : json :=
  JDict [("data", JList (map ListResponseStudent.to_json (data r)))].

End StudentCollection.

Module CreateStudentResponse.

Record t : Type := mk {
  id : string
}.

Definition to_json (r : t) : json :=
  JDict [("id", JStr (id r))].

End CreateStudentResponse.

Module GetSingleStudentResponse.

Record t : Type := mk {
  name : string;
  age : Z;
  address : AddressModel.t
}.

Definition from_value {rt : Runtime} (v : value) : option t :=
  match v with
  | VDict d =>
      match required_value "name" str_of_value d,
            required_value "age" int_of_value d,
            required_value "address" AddressModel.from_value d with
      | Some n, Some a, Some ad => Some (mk n a ad)
      | _, _, _ => None
      end
  | _ => None
  end.

Definition to_json (r : t) : json :=
  JDict [("name", JStr (name r));
         ("age", JInt (age r));
         ("address", AddressModel.to_json (address r))].

End GetSingleStudentResponse.

(* ===================================================================== *)
(** ** The collection [db.students] and its primitives *)
(* ===================================================================== *)

(** The documents in natural (insertion) order.  The store is taken to be
    reachable and its documents to stay under the size limit the server
    announces (16 MiB by default): a failure of the connection and
    [DocumentTooLarge] are not outcomes of the model.  An integer the
    driver refuses to encode is: see [encodable]. *)
Definition collection : Type := list document.

(** A condition on one field of a filter document, in the two forms the
    handlers build: [{field: v}] and [{field: {"$gte": n}}]. *)
Inductive condition : Type :=
| Eq (v : value)
| Gte (n : Z).

Definition filter_doc : Type := Dict.t condition.

(** A projection document: [1] keeps a field, [0] drops it. *)
Definition projection : Type := Dict.t bool.

(** ["address.country"] names the field [country] of the embedded document
    [address]. *)
Fixpoint split_dots (s : string) (word : string) : list string :=
  match s with
  | EmptyString => [word]
  | String c s' =>
      if Ascii.eqb c "."%char then word :: split_dots s' EmptyString
      else split_dots s' (word ++ String c EmptyString)
  end.

Fixpoint get_path (path : list string) (v : value) : option value :=
  match path with
  | [] => Some v
  | k :: rest =>
      match v with
      | VDict d =>
          match Dict.get k d with
          | Some x => get_path rest x
          | None => None
          end
      | _ => None
      end
  end.

(** [{field: None}] also matches a document without the field; [$gte]
    with a number only matches numbers. *)
Definition holds (c : condition) (field : option value) : bool :=
  match c, field with
  | Eq VNone, None => true
  | Eq v, Some x => value_eqb x v
  | Gte n, Some (VInt a) => (n <=? a)
  | _, _ => false
  end.

Definition matches (q : filter_doc) (d : document) : bool :=
  forallb (fun kc => holds (snd kc) (get_path (split_dots (fst kc) "") (VDict d))) q.

(** With some field kept the result has the kept fields, and [_id] unless
    it is dropped; otherwise it has every field that is not dropped. *)
Definition project (p : projection) (d : document) : document :=
  let inclusive := existsb (fun kb => snd kb) p in
  filter (fun kv =>
            match Dict.get (fst kv) p with
            | Some keep => keep
            | None => if inclusive then String.eqb (fst kv) "_id" else true
            end) d.

Record InsertOneResult : Type := { inserted_id : value }.
Record UpdateResult : Type := { matched_count : Z; modified_count : Z }.
Record DeleteResult : Type := { deleted_count : Z }.

(** [$set] of top-level fields. *)
Definition apply_set (update : Dict.t value) (d : document) : document :=
  fold_left (fun acc kv => Dict.set (fst kv) (snd kv) acc) update d.

(** The first document that matches is the one updated or deleted. *)
Fixpoint update_first (q : filter_doc) (update : Dict.t value) (c : collection)
  : UpdateResult * collection :=
  match c with
  | [] => ({| matched_count := 0; modified_count := 0 |}, [])
  | d :: c' =>
      if matches q d then
        let d' := apply_set update d in
        ({| matched_count := 1;
            modified_count := if document_eqb d d' then 0 else 1 |},
         d' :: c')
      else
        let rc := update_first q update c' in
        (fst rc, d :: snd rc)
  end.

Fixpoint delete_first (q : filter_doc) (c : collection)
  : DeleteResult * collection :=
  match c with
  | [] => ({| deleted_count := 0 |}, [])
  | d :: c' =>
      if matches q d then ({| deleted_count := 1 |}, c')
      else
        let rc := delete_first q c' in
        (fst rc, d :: snd rc)
  end.

(* ===================================================================== *)
(** ** Handlers: state and exceptions *)
(* ===================================================================== *)

Inductive exn : Type :=
| HTTPException (status_code : Z) (detail : string)
| InvalidId (oid : string)
| DuplicateKeyError
| TypeError
| KeyError (key : string)
| ValidationError
| ResponseValidationError
| OverflowError.

Inductive outcome (A : Type) : Type :=
| Ok (a : A)
| Raise (e : exn).
Arguments Ok {A} a.
Arguments Raise {A} e.

(** A handler runs against the collection and either returns or raises; the
    collection it leaves behind is the second component. *)
Definition M (A : Type) : Type := collection -> outcome A * collection.

Definition ret {A} (a : A) : M A := fun c => (Ok a, c).

Definition raise {A} (e : exn) : M A := fun c => (Raise e, c).

Definition bind {A B} (m : M A) (k : A -> M B) : M B :=
  fun c =>
    match m c with
    | (Ok a, c') => k a c'
    | (Raise e, c') => (Raise e, c')
    end.

Declare Scope handler_scope.
Delimit Scope handler_scope with handler.
Notation "x <- m ;; k" := (bind m (fun x => k))
  (at level 61, m at next level, right associativity) : handler_scope.
Local Open Scope handler_scope.

(** [ObjectId(id)] raises [InvalidId] on a string it cannot parse. *)
Definition ObjectId_ (id : string) : M ObjectId.t :=
  match ObjectId.of_str id with
  | Some oid => ret oid
  | None => raise (InvalidId id)
  end.

Definition has_id (_id : value) (d : document) : bool :=
  match Dict.get "_id" d with
  | Some v => value_eqb v _id
  | None => false
  end.

(** BSON has 32-bit and 64-bit integers: the driver encodes an [int]
    between [-2^63] and [2^63 - 1] and raises [OverflowError] on any
    other, wherever it occurs in a document, an update or a filter. *)
Definition fits_int64 (z : Z) : bool :=
  (- 2 ^ 63 <=? z) && (z <=? 2 ^ 63 - 1).

Fixpoint encodable (v : value) : bool :=
  match v with
  | VInt z => fits_int64 z
  | VDict d =>
      (fix fields (d : list (string * value)) : bool :=
         match d with
         | [] => true
         | (_, x) :: d' => encodable x && fields d'
         end) d
  | _ => true
  end.

Definition encodable_condition (c : condition) : bool :=
  match c with
  | Eq v => encodable v
  | Gte n => fits_int64 n
  end.

Definition encodable_filter (q : filter_doc) : bool :=
  forallb (fun kc => encodable_condition (snd kc)) q.

(** A command is encoded before it is sent: when the encoder raises,
    nothing reaches the store. *)
Definition encoded {A} (ok : bool) (command : M A) : M A :=
  if ok then command else raise OverflowError.

(** [student_collection.insert_one(document)]: a document without [_id]
    gets [new_oid], the [ObjectId()] the driver generates; [_id] is stored
    first; the document is encoded, and the unique index on [_id] rejects
    a duplicate. *)
Definition insert_one (new_oid : ObjectId.t) (d : document)
  : M InsertOneResult :=
  let _id :=
    match Dict.get "_id" d with
    | Some v => v
    | None => VObjectId new_oid
    end in
  let stored : document := ("_id", _id) :: Dict.remove "_id" d in
  encoded (encodable (VDict stored))
    (fun c =>
       if existsb (has_id _id) c then (Raise DuplicateKeyError, c)
       else (Ok {| inserted_id := _id |}, (c ++ [stored])%list)).

(** [student_collection.find_one(filter, projection)]. *)
Definition find_one (q : filter_doc) (p : projection) : M (option document) :=
  encoded (encodable_filter q)
    (fun c => (Ok (option_map (project p) (find (matches q) c)), c)).

(** [student_collection.find(filter, projection).to_list(length)]. *)
Definition find_to_list (q : filter_doc) (p : projection) (length : nat)
  : M (list document) :=
  encoded (encodable_filter q)
    (fun c => (Ok (firstn length (map (project p) (filter (matches q) c))), c)).

(** [student_collection.update_one(filter, {"$set": update})]. *)
Definition update_one (q : filter_doc) (update : Dict.t value) : M UpdateResult :=
  encoded (encodable_filter q && encodable (VDict update))
    (fun c => let rc := update_first q update c in (Ok (fst rc), snd rc)).

(** [student_collection.delete_one(filter)]. *)
Definition delete_one (q : filter_doc) : M DeleteResult :=
  encoded (encodable_filter q)
    (fun c => let rc := delete_first q c in (Ok (fst rc), snd rc)).

(** [d[key]] on the result of [find_one]: [TypeError] on [None],
    [KeyError] on a missing key. *)
Definition subscript (d : option document) (key : string) : M value :=
  match d with
  | None => raise TypeError
  | Some d =>
      match Dict.get key d with
      | Some v => ret v
      | None => raise (KeyError key)
      end
  end.

(** Truth value of an [Optional[str]] and of an optional document. *)
Definition truthy_str (s : option string) : bool :=
  match s with
  | Some (String _ _) => true
  | _ => false
  end.

Definition truthy_doc (d : option document) : bool :=
  match d with
  | Some (_ :: _) => true
  | _ => false
  end.

Definition is_not_None (v : value) : bool :=
  match v with VNone => false | _ => true end.

Section Handlers.

Context {rt : Runtime}.

(** Insert a new student record.  A unique [id] will be created and
    provided in the response. *)
Definition create_student (new_oid : ObjectId.t) (student : StudentModel.t)
  : M CreateStudentResponse.t :=
  new_student <-
    insert_one new_oid (StudentModel.model_dump true ["id"] student) ;;
  created_student <-
    find_one [("_id", Eq (inserted_id new_student))] [] ;;
  _id <- subscript created_student "_id" ;;
  ret (CreateStudentResponse.mk (str _id)).

(** List the students: [if country:] adds the filter on
    [address.country], [if age is not None:] the minimum age; the result
    is projected to [name] and [age] and cut at 1000. *)
Definition list_students (country : option string) (age : option Z)
  : M StudentCollection.t :=
  let query : filter_doc := [] in
  let query :=
    if truthy_str country then
      Dict.set "address.country"
        (Eq (VStr (match country with Some c => c | None => "" end))) query
    else query in
  let query :=
    match age with
    | Some a => Dict.set "age" (Gte a) query
    | None => query
    end in
  students <-
    find_to_list query [("name", true); ("age", true); ("_id", false)] 1000 ;;
  match StudentCollection.new students with
  | Some r => ret r
  | None => raise ValidationError
  end.

(** Get the record for a specific student, looked up by [id]. *)
Definition fetch_student (id : string) : M document :=
  oid <- ObjectId_ id ;;
  student <- find_one [("_id", Eq (VObjectId oid))] [("_id", false)] ;;
  match student with
  | Some student => ret student
  | None =>
      raise (HTTPException 404 ("Student " ++ id ++ " not found")%string)
  end.

(** Update a student: the fields that are set and not [None] are written
    with [$set]; when nothing is written or nothing was modified, [probe]
    (the code after the [if]) looks the student up. *)
Definition update_student (id : string) (student : UpdateStudentModel.t)
  : M (Dict.t value) :=
  let update_data :=
    filter (fun kv => is_not_None (snd kv))
           (UpdateStudentModel.model_dump true student) in
  let probe : M (Dict.t value) :=
    oid <- ObjectId_ id ;;
    existing_student <- find_one [("_id", Eq (VObjectId oid))] [] ;;
    if truthy_doc existing_student then ret []
    else raise (HTTPException 404 ("Student " ++ id ++ " not found")%string) in
  if (0 <? List.length update_data)%nat then
    oid <- ObjectId_ id ;;
    update_result <- update_one [("_id", Eq (VObjectId oid))] update_data ;;
    if modified_count update_result =? 1 then ret [] else probe
  else probe.

(** Delete a student. *)
Definition delete_student (id : string) : M (Dict.t value) :=
  oid <- ObjectId_ id ;;
  delete_result <- delete_one [("_id", Eq (VObjectId oid))] ;;
  if deleted_count delete_result =? 1 then ret []
  else raise (HTTPException 404 ("Student " ++ id ++ " not found")%string).

End Handlers.

(* ===================================================================== *)
(** ** Routes: what FastAPI does around a handler *)
(* ===================================================================== *)

(** The response of a route: a JSON response with a status code; the
    422 response to a request that fails validation; the 500 response to
    an exception nothing handles. *)
Inductive Response : Type :=
| JSONResponse (status_code : Z) (content : json)
| RequestValidationError (errors : list ErrorDetails)
| ServerError (e : exn).

Definition status_code (r : Response) : Z :=
  match r with
  | JSONResponse code _ => code
  | RequestValidationError _ => 422
  | ServerError _ => 500
  end.

(** [jsonable_encoder] on a value returned without a response model. *)
Fixpoint jsonable_encoder (v : value) : option json :=
  match v with
  | VNone => Some JNull
  | VInt z => Some (JInt z)
  | VStr s => Some (JStr s)
  | VObjectId _ => None
  | VDict d =>
      option_map JDict
        ((fix fields (d : list (string * value)) : option (list (string * json)) :=
            match d with
            | [] => Some []
            | (k, x) :: d' =>
                match jsonable_encoder x, fields d' with
                | Some j, Some js => Some ((k, j) :: js)
                | _, _ => None
                end
            end) d)
  end.

(** A returned value is serialized under the route's status code; an
    [HTTPException] becomes its own status code with [{"detail": ...}];
    any other exception is a server error. *)
Definition respond {A} (status : Z) (serialize : A -> option json)
    (r : outcome A * collection) : Response * collection :=
  (match fst r with
   | Ok a =>
       match serialize a with
       | Some j => JSONResponse status j
       | None => ServerError ResponseValidationError
       end
   | Raise (HTTPException code detail) =>
       JSONResponse code (JDict [("detail", JStr detail)])
   | Raise e => ServerError e
   end,
   snd r).

Section Routes.

Context {rt : Runtime}.

(** [POST /students/], [response_model=CreateStudentResponse],
    [status_code=201]. *)
Definition app_post_students (new_oid : ObjectId.t) (body : json)
  : collection -> Response * collection :=
  fun c =>
    match StudentModel.validate body with
    | Invalid errors => (RequestValidationError errors, c)
    | Valid student =>
        respond 201 (fun r => Some (CreateStudentResponse.to_json r))
          (create_student new_oid student c)
    end.

(** [GET /students/], [response_model=StudentCollection]; the query
    parameter [age] arrives as a string. *)
Definition app_get_students (country : option string) (age : option string)
  : collection -> Response * collection :=
  fun c =>
    match age with
    | None =>
        respond 200 (fun r => Some (StudentCollection.to_json r))
          (list_students country None c)
    | Some a =>
        match str_as_int a with
        | Some n =>
            respond 200 (fun r => Some (StudentCollection.to_json r))
              (list_students country (Some n) c)
        | None => (RequestValidationError [(["query"; "age"], int_parsing)], c)
        end
    end.

(** [GET /students/{id}], [response_model=GetSingleStudentResponse]. *)
Definition app_get_student (id : string)
  : collection -> Response * collection :=
  fun c =>
    respond 200
      (fun d => option_map GetSingleStudentResponse.to_json
                  (GetSingleStudentResponse.from_value (VDict d)))
      (fetch_student id c).

(** [PATCH /students/{id}], [status_code=204]. *)
Definition app_patch_student (id : string) (body : json)
  : collection -> Response * collection :=
  fun c =>
    match UpdateStudentModel.validate body with
    | Invalid errors => (RequestValidationError errors, c)
    | Valid student =>
        respond 204 (fun d => jsonable_encoder (VDict d))
          (update_student id student c)
    end.

(** [DELETE /students/{id}], [status_code=200]. *)
Definition app_delete_student (id : string)
  : collection -> Response * collection :=
  fun c =>
    respond 200 (fun d => jsonable_encoder (VDict d)) (delete_student id c).

End Routes.

(* ===================================================================== *)
(** ** Student documents *)
(* ===================================================================== *)

(** The shape of a document written through this API:
    [{_id, name, age, address: {city, country}}]. *)
Definition is_student_doc (d : document) : bool :=
  match Dict.get "_id" d, Dict.get "name" d, Dict.get "age" d,
        Dict.get "address" d with
  | Some (VObjectId _), Some (VStr _), Some (VInt _), Some (VDict a) =>
      match Dict.get "city" a, Dict.get "country" a with
      | Some (VStr _), Some (VStr _) => true
      | _, _ => false
      end
  | _, _, _, _ => false
  end.

Definition student_collection_ok (c : collection) : bool :=
  forallb is_student_doc c.

(** Reading a student document. *)
Definition doc_id (d : document) : option ObjectId.t :=
  match Dict.get "_id" d with
  | Some (VObjectId oid) => Some oid
  | _ => None
  end.

Definition doc_name (d : document) : string :=
  match Dict.get "name" d with Some (VStr s) => s | _ => "" end.

Definition doc_age (d : document) : Z :=
  match Dict.get "age" d with Some (VInt z) => z | _ => 0 end.

Definition doc_address_field (key : string) (d : document) : string :=
  match Dict.get "address" d with
  | Some (VDict a) =>
      match Dict.get key a with Some (VStr s) => s | _ => "" end
  | _ => ""
  end.

Definition doc_city (d : document) : string := doc_address_field "city" d.
Definition doc_country (d : document) : string := doc_address_field "country" d.

(** A reference runtime for running the model on examples: decimal
    digits with an optional sign for [str] to [int]; integral floats. *)
Fixpoint digits_value (s : string) (acc : Z) : option Z :=
  match s with
  | EmptyString => Some acc
  | String c s' =>
      let n := Z.of_N (N_of_ascii c) in
      if (48 <=? n) && (n <=? 57) then digits_value s' (10 * acc + (n - 48))
      else None
  end.

Definition example_str_as_int (s : string) : option Z :=
  match s with
  | EmptyString => None
  | String "-" (String c s') => option_map Z.opp (digits_value (String c s') 0)
  | String "+" (String c s') => digits_value (String c s') 0
  | _ => digits_value s 0
  end.

Definition example_float_as_int (f : spec_float) : option Z :=
  match f with
  | S754_zero _ => Some 0
  | S754_finite s m e =>
      let v := if 0 <=? e then Z.pos m * 2 ^ e
               else Z.pos m / 2 ^ (- e) in
      if (0 <=? e) || (Z.pos m mod 2 ^ (- e) =? 0)
      then Some (if s then - v else v)
      else None
  | _ => None
  end.

Definition example_runtime : Runtime := {|
  str_as_int := example_str_as_int;
  float_as_int := example_float_as_int;
  json_str := fun _ => "<object>";
  value_repr := fun _ => "<object>"
|}.

(* ===================================================================== *)
(** ** Vocabulary of the properties *)
(* ===================================================================== *)

Local Open Scope list_scope.

(** A path parameter is malformed when it is not the string form of any
    12-byte identifier. *)
Definition malformed (id : string) : Prop :=
  forall oid : ObjectId.t,
    List.length (ObjectId.binary oid) = 12%nat -> id <> ObjectId.to_str oid.

Definition client_error (r : Response) : bool :=
  (status_code r =? 404) || (status_code r =? 400).

Definition by_id (oid : ObjectId.t) : filter_doc := [("_id", Eq (VObjectId oid))].

(** Every document has an [_id], and no two documents share one: the
    unique index of the collection. *)
Fixpoint unique_ids (c : collection) : bool :=
  match c with
  | [] => true
  | d :: c' =>
      match Dict.get "_id" d with
      | Some v => negb (existsb (has_id v) c') && unique_ids c'
      | None => false
      end
  end.

(** The example record of [StudentModel]'s [json_schema_extra], and a
    second one. *)
Definition jane_oid : ObjectId.t :=
  ObjectId.mk [x65; x4f; x1a; x2b; x3c; x4d; x5e; x6f; x70; x81; x92; x03].

Definition jane_id : string := "654f1a2b3c4d5e6f70819203".

Definition jane_address : AddressModel.t :=
  AddressModel.mk "Agra" "India" ["city"; "country"].

Definition jane : StudentModel.t :=
  StudentModel.mk None "Jane Doe" 22 jane_address.

Definition jane_json : json :=
  JDict [("name", JStr "Jane Doe"); ("age", JInt 22);
         ("address", JDict [("city", JStr "Agra"); ("country", JStr "India")])].

Definition jane_doc : document :=
  [("_id", VObjectId jane_oid); ("name", VStr "Jane Doe"); ("age", VInt 22);
   ("address", VDict [("city", VStr "Agra"); ("country", VStr "India")])].

Definition rahul_doc : document :=
  [("_id", VObjectId (ObjectId.mk [x65; x4f; x1a; x2b; x3c; x4d; x5e; x6f; x70; x81; x92; x04]));
   ("name", VStr "Rahul"); ("age", VInt 20);
   ("address", VDict [("city", VStr "Delhi"); ("country", VStr "India")])].

Definition student_not_found (id : string) : json :=
  JDict [("detail", JStr ("Student " ++ id ++ " not found")%string)].

(** The detail view of a student document: name, age, address. *)
Definition detail_view (d : document) : json :=
  JDict [("name", JStr (doc_name d));
         ("age", JInt (doc_age d));
         ("address", JDict [("city", JStr (doc_city d));
                            ("country", JStr (doc_country d))])].

(** The document [create_student] stores for a student under the
    identifier the store assigns. *)
Definition student_doc (oid : ObjectId.t) (s : StudentModel.t) : document :=
  [("_id", VObjectId oid);
   ("name", VStr (StudentModel.name s));
   ("age", VInt (StudentModel.age s));
   ("address",
     VDict [("city", VStr (AddressModel.city (StudentModel.address s)));
            ("country", VStr (AddressModel.country (StudentModel.address s)))])].

(** The detail view of a validated student. *)
Definition student_json (s : StudentModel.t) : json :=
  JDict [("name", JStr (StudentModel.name s));
         ("age", JInt (StudentModel.age s));
         ("address",
           JDict [("city", JStr (AddressModel.city (StudentModel.address s)));
                  ("country", JStr (AddressModel.country (StudentModel.address s)))])].

(** The value written for an address of an update body: the fields of
    the address that are set, [city] before [country]. *)
Definition address_value (a : AddressModel.t) : value :=
  VDict ((if str_in "city" (AddressModel.model_fields_set a)
          then [("city", VStr (AddressModel.city a))] else [])
         ++ (if str_in "country" (AddressModel.model_fields_set a)
             then [("country", VStr (AddressModel.country a))] else [])).

(** The update set [update_student] builds from the request body. *)
Definition update_set (student : UpdateStudentModel.t) : Dict.t value :=
  filter (fun kv => is_not_None (snd kv))
         (UpdateStudentModel.model_dump true student).

(** The existence probe at the end of [update_student]. *)
Definition probe_outcome (id : string) (oid : ObjectId.t) (c : collection)
  : outcome (Dict.t value) :=
  if existsb (has_id (VObjectId oid)) c then Ok []
  else Raise (HTTPException 404 ("Student " ++ id ++ " not found")%string).

Ltac other_key k :=
  cbn [Dict.get];
  repeat match goal with
    | |- context [String.eqb k ?s] =>
        destruct (String.eqb_spec k s); [contradiction|]
    end;
  reflexivity.

Ltac never_None k :=
  cbn [Dict.get];
  repeat match goal with
    | |- context [String.eqb k ?s] => destruct (String.eqb k s)
    end;
  discriminate.

Ltac distinct_keys :=
  cbn [Dict.keys map fst];
  repeat (apply NoDup_cons; [cbn [In]; intuition discriminate|]);
  apply NoDup_nil.

(** The records a list request selects: [country], when given and not
    empty, must equal [address.country]; [age], when given, is a minimum. *)
Definition selected (country : option string) (age : option Z) (d : document)
  : bool :=
  match country with
  | Some (String _ _ as co) => String.eqb (doc_country d) co
  | _ => true
  end
  && match age with
     | Some n => (n <=? doc_age d)
     | None => true
     end.

(** The selection as C7 words it: a country that is given always filters. *)
Definition selected_as_stated (country : option string) (age : option Z)
    (d : document) : bool :=
  match country with
  | Some co => String.eqb (doc_country d) co
  | None => true
  end
  && match age with
     | Some n => (n <=? doc_age d)
     | None => true
     end.

(** The list view of a student document: name and age. *)
Definition list_view (d : document) : ListResponseStudent.t :=
  ListResponseStudent.mk (doc_name d) (doc_age d).

(** The filter document [list_students] builds. *)
Definition list_query (country : option string) (age : option Z) : filter_doc :=
  let query : filter_doc := [] in
  let query :=
    if truthy_str country then
      Dict.set "address.country"
        (Eq (VStr (match country with Some c => c | None => "" end))) query
    else query in
  match age with
  | Some a => Dict.set "age" (Gte a) query
  | None => query
  end.

Definition list_projection : projection :=
  [("name", true); ("age", true); ("_id", false)].

(** An age filter the driver can encode. *)
Definition age_fits (age : option Z) : bool :=
  match age with
  | Some n => fits_int64 n
  | None => true
  end.

(** The query parameter [age] after validation: [None] when it is not an
    integer, otherwise the optional integer the handler receives. *)
Definition query_age {rt : Runtime} (age : option string) : option (option Z) :=
  match age with
  | None => Some None
  | Some a => option_map Some (str_as_int a)
  end.

(** The element of the list response for a student document. *)
Definition list_item (d : document) : json :=
  JDict [("name", JStr (doc_name d)); ("age", JInt (doc_age d))].

(** An element of the list response: exactly the fields [name] and [age]. *)
Definition is_list_item (j : json) : Prop :=
  exists n a, j = JDict [("name", JStr n); ("age", JInt a)].

Definition is_some {A} (o : option A) : bool :=
  match o with Some _ => true | None => false end.

Definition is_str (x : json) : bool :=
  match x with JStr _ => true | _ => false end.

(** What an [int] field takes: an [int], a [bool], and the floats and
    strings that pydantic converts. *)
Definition is_lax_int {rt : Runtime} (x : json) : bool :=
  match x with
  | JInt _ => true
  | JBool _ => true
  | JFloat S754_nan => false
  | JFloat (S754_infinity _) => false
  | JFloat f => is_some (float_as_int f)
  | JStr s => is_some (str_as_int s)
  | _ => false
  end.

Definition is_address (x : json) : bool :=
  match x with
  | JDict a =>
      match Dict.get "city" a, Dict.get "country" a with
      | Some ci, Some co => is_str ci && is_str co
      | _, _ => false
      end
  | _ => false
  end.

Definition has_field (key : string) (p : json -> bool) (d : Dict.t json) : bool :=
  match Dict.get key d with Some x => p x | None => false end.

Definition null_or (p : json -> bool) (x : json) : bool :=
  match x with JNull => true | _ => p x end.

(** The bodies [StudentModel] accepts. *)
Definition creation_shape {rt : Runtime} (body : json) : bool :=
  match body with
  | JDict d =>
      has_field "name" is_str d && has_field "age" is_lax_int d
      && has_field "address" is_address d
  | _ => false
  end.

(** The bodies C10 says are accepted: a non-empty [name], an integer
    [age], string [city] and [country]. *)
Definition creation_shape_as_stated (body : json) : bool :=
  match body with
  | JDict d =>
      has_field "name" (fun x => match x with JStr (String _ _) => true | _ => false end) d
      && has_field "age" (fun x => match x with JInt _ => true | _ => false end) d
      && has_field "address" is_address d
  | _ => false
  end.

(** The bodies [UpdateStudentModel] accepts: the three keys are all there,
    each with [null] or a value of the field's type. *)
Definition update_shape {rt : Runtime} (body : json) : bool :=
  match body with
  | JDict d =>
      has_field "name" (null_or is_str) d
      && has_field "age" (null_or is_lax_int) d
      && has_field "address" (null_or is_address) d
  | _ => false
  end.

(** The list of identifiers of a collection, in order. *)
Definition ids (c : collection) : list (option value) :=
  map (Dict.get "_id") c.

(** The detail view of a student document after the fields of a validated
    update body have been written to it: a field of the body that has a
    value replaces the stored one, a [None] field leaves it. *)
Definition updated_view (student : UpdateStudentModel.t) (d : document) : json :=
  JDict [("name",
           JStr (match UpdateStudentModel.name student with
                 | Some n => n
                 | None => doc_name d
                 end));
         ("age",
           JInt (match UpdateStudentModel.age student with
                 | Some a => a
                 | None => doc_age d
                 end));
         ("address",
           match UpdateStudentModel.address student with
           | Some a => AddressModel.to_json a
           | None => JDict [("city", JStr (doc_city d));
                            ("country", JStr (doc_country d))]
           end)].

(** What the fetch route answers, given the document [find_one] returns. *)
Definition fetch_response {rt : Runtime} (id : string) (found : option document)
  : Response :=
  match found with
  | Some d =>
      match GetSingleStudentResponse.from_value (VDict (project [("_id", false)] d)) with
      | Some r => JSONResponse 200 (GetSingleStudentResponse.to_json r)
      | None => ServerError ResponseValidationError
      end
  | None => JSONResponse 404 (student_not_found id)
  end.

(* ===================================================================== *)
(** * Properties *)
(* ===================================================================== *)

(** ** Values and identifiers *)

Lemma ObjectId_eqb_eq (a b : ObjectId.t) : ObjectId.eqb a b = true <-> a = b.
Proof.
  unfold ObjectId.eqb. destruct a as [x], b as [y]; simpl.
  destruct (list_eq_dec Byte.byte_eq_dec x y) as [->|n].
  - split; auto.
  - split; [discriminate | intros E; inversion E; contradiction].
Qed.

Lemma ObjectId_eqb_refl (a : ObjectId.t) : ObjectId.eqb a a = true.
Proof. apply ObjectId_eqb_eq. reflexivity. Qed.

Lemma value_eqb_eq : forall a b : value, value_eqb a b = true <-> a = b.
Proof.
  fix IH 1. intros a b. destruct a as [ |x|x|x|x]; destruct b as [ |y|y|y|y];
    simpl; try (split; [discriminate | intros E; discriminate E]).
  - split; reflexivity.
  - rewrite Z.eqb_eq. split; [intros ->; reflexivity | intros E; inversion E; reflexivity].
  - rewrite String.eqb_eq. split; [intros ->; reflexivity | intros E; inversion E; reflexivity].
  - rewrite ObjectId_eqb_eq. split; [intros ->; reflexivity | intros E; inversion E; reflexivity].
  - revert y. induction x as [|[k v] x IHx]; intros [|[k' v'] y].
    + split; reflexivity.
    + split; [discriminate | intros E; discriminate E].
    + split; [discriminate | intros E; discriminate E].
    + rewrite !andb_true_iff, String.eqb_eq, (IH v v'), (IHx y).
      split.
      * intros [[-> ->] E]. inversion E. reflexivity.
      * intros E. inversion E. auto.
Qed.

Lemma value_eqb_refl (a : value) : value_eqb a a = true.
Proof. apply value_eqb_eq. reflexivity. Qed.

Lemma document_eqb_eq (a b : document) : document_eqb a b = true <-> a = b.
Proof.
  unfold document_eqb. rewrite value_eqb_eq.
  split; [intros E; inversion E; reflexivity | intros ->; reflexivity].
Qed.

(** [bytes.fromhex] undoes [hexlify], byte by byte. *)
Lemma fromhex_hexlify_byte (b : byte) (s : string) :
  ObjectId.fromhex
    (String (ObjectId.hexdigit (Byte.to_N b / 16))
       (String (ObjectId.hexdigit (Byte.to_N b mod 16)) s))
  = match ObjectId.fromhex s with
    | Some bs => Some (b :: bs)
    | None => None
    end.
Proof. destruct b; reflexivity. Qed.

Lemma fromhex_hexlify (bs : list byte) :
  ObjectId.fromhex (ObjectId.hexlify bs) = Some bs.
Proof.
  induction bs as [|b bs IH]; [reflexivity|].
  cbn [ObjectId.hexlify]. rewrite fromhex_hexlify_byte, IH. reflexivity.
Qed.

Lemma length_hexlify (bs : list byte) :
  String.length (ObjectId.hexlify bs) = (2 * List.length bs)%nat.
Proof.
  induction bs as [|b bs IH]; [reflexivity|].
  cbn [ObjectId.hexlify String.length List.length]. rewrite IH. lia.
Qed.

(** The string form of a 12-byte identifier parses back to it. *)
Lemma of_str_to_str (oid : ObjectId.t) :
  List.length (ObjectId.binary oid) = 12%nat ->
  ObjectId.of_str (ObjectId.to_str oid) = Some oid.
Proof.
  intros L. unfold ObjectId.of_str, ObjectId.to_str.
  rewrite length_hexlify, L, fromhex_hexlify. destruct oid; reflexivity.
Qed.

(** A string whose length is not 24 is not an identifier. *)
Lemma of_str_length (id : string) (oid : ObjectId.t) :
  ObjectId.of_str id = Some oid -> String.length id = 24%nat.
Proof.
  unfold ObjectId.of_str. destruct (Nat.eqb_spec (String.length id) 24); [auto | discriminate].
Qed.

(** ** Malformed identifiers (C1) *)

Lemma malformed_abc : malformed "abc".
Proof.
  intros oid L E. apply (f_equal String.length) in E.
  unfold ObjectId.to_str in E. rewrite length_hexlify, L in E. discriminate E.
Qed.

(** What [ObjectId] rejects is malformed. *)
Lemma rejected_is_malformed (id : string) :
  ObjectId.of_str id = None -> malformed id.
Proof.
  intros E oid L ->. rewrite (of_str_to_str oid L) in E. discriminate E.
Qed.

(** The converse fails: upper-case digits are not the string form of an
    identifier, and [ObjectId] takes them. *)
Lemma upper_case_is_malformed_and_accepted :
  malformed "654F1A2B3C4D5E6F70819203"
  /\ ObjectId.of_str "654F1A2B3C4D5E6F70819203" = Some jane_oid.
Proof.
  split; [|reflexivity].
  intros oid L E.
  assert (P : ObjectId.of_str "654F1A2B3C4D5E6F70819203" = Some oid)
    by (rewrite E; exact (of_str_to_str oid L)).
  cbv in P. inversion P as [B]. rewrite <- B in E. cbv in E. discriminate E.
Qed.

Lemma ObjectId_invalid (id : string) (c : collection) :
  ObjectId.of_str id = None -> ObjectId_ id c = (Raise (InvalidId id), c).
Proof. intros E. unfold ObjectId_. rewrite E. reflexivity. Qed.

Lemma ObjectId_valid (id : string) (oid : ObjectId.t) (c : collection) :
  ObjectId.of_str id = Some oid -> ObjectId_ id c = (Ok oid, c).
Proof. intros E. unfold ObjectId_. rewrite E. reflexivity. Qed.

(** C1, as the specification states it, fails: it is not the case that
    every malformed id gets a client error (404 or 400) from the fetch,
    update and delete routes.  The id ["abc"] makes [ObjectId] raise
    [InvalidId], which no handler catches. *)
Lemma C1_malformed_id_is_not_a_client_error :
  ~ (forall (rt : Runtime) (id : string) (body : json) (c : collection),
        malformed id ->
        is_valid (UpdateStudentModel.validate body) = true ->
        client_error (fst (app_get_student id c)) = true
        /\ client_error (fst (app_patch_student id body c)) = true
        /\ client_error (fst (app_delete_student id c)) = true).
Proof.
  intros claim.
  destruct (claim example_runtime "abc"
              (JDict [("name", JNull); ("age", JInt 23); ("address", JNull)])
              [] malformed_abc eq_refl) as [G _].
  discriminate G.
Qed.

(** C1, amended: when [ObjectId] rejects the id (its length is not 24, or
    [bytes.fromhex] rejects it), fetch, update and delete all raise
    [InvalidId]; the three routes answer with the server error of an
    unhandled exception, and the collection is left as it was. *)
Theorem C1_malformed_id_raises_InvalidId
    (rt : Runtime) (id : string) (student : UpdateStudentModel.t)
    (body : json) (c : collection) :
  ObjectId.of_str id = None ->
  UpdateStudentModel.validate body = Valid student ->
  fetch_student id c = (Raise (InvalidId id), c)
  /\ update_student id student c = (Raise (InvalidId id), c)
  /\ delete_student id c = (Raise (InvalidId id), c)
  /\ app_get_student id c = (ServerError (InvalidId id), c)
  /\ app_patch_student id body c = (ServerError (InvalidId id), c)
  /\ app_delete_student id c = (ServerError (InvalidId id), c).
Proof.
  intros E V.
  assert (F : fetch_student id c = (Raise (InvalidId id), c)).
  { unfold fetch_student, bind. rewrite (ObjectId_invalid id c E). reflexivity. }
  assert (U : update_student id student c = (Raise (InvalidId id), c)).
  { unfold update_student, bind.
    destruct (0 <? List.length _)%nat;
      rewrite (ObjectId_invalid id c E); reflexivity. }
  assert (D : delete_student id c = (Raise (InvalidId id), c)).
  { unfold delete_student, bind. rewrite (ObjectId_invalid id c E). reflexivity. }
  repeat split; auto.
  - unfold app_get_student. rewrite F. reflexivity.
  - unfold app_patch_student. rewrite V, U. reflexivity.
  - unfold app_delete_student. rewrite D. reflexivity.
Qed.

Lemma C1_malformed_id_raises_InvalidId_witness :
  ObjectId.of_str "abc" = None
  /\ app_get_student (rt := example_runtime) "abc" [] = (ServerError (InvalidId "abc"), [])
  /\ app_delete_student "abc" [] = (ServerError (InvalidId "abc"), []).
Proof.
  pose proof (C1_malformed_id_raises_InvalidId example_runtime "abc"
                (UpdateStudentModel.mk None (Some 23) None ["name"; "age"; "address"])
                (JDict [("name", JNull); ("age", JInt 23); ("address", JNull)])
                [] eq_refl eq_refl) as W.
  split; [reflexivity|]. split; apply W.
Defined.

(** ** Looking a document up by its identifier *)

Lemma matches_by_id (oid : ObjectId.t) (d : document) :
  matches (by_id oid) d = has_id (VObjectId oid) d.
Proof.
  unfold matches, by_id, has_id. cbn.
  destruct (Dict.get "_id" d) as [v|]; cbn; [|reflexivity].
  rewrite andb_true_r. reflexivity.
Qed.

Lemma has_id_doc_id (oid : ObjectId.t) (d : document) :
  has_id (VObjectId oid) d = true <-> doc_id d = Some oid.
Proof.
  unfold has_id, doc_id. destruct (Dict.get "_id" d) as [v|].
  - rewrite value_eqb_eq. split.
    + intros ->. reflexivity.
    + destruct v; try discriminate. intros E. inversion E. reflexivity.
  - split; discriminate.
Qed.

Lemma has_id_nonempty (v : value) (d : document) :
  has_id v d = true -> truthy_doc (Some d) = true.
Proof. unfold has_id. destruct d; [discriminate | reflexivity]. Qed.

Lemma find_none {A} (f : A -> bool) (l : list A) :
  existsb f l = false -> find f l = None.
Proof.
  induction l as [|a l IH]; simpl; [reflexivity|].
  destruct (f a); simpl; [discriminate | exact IH].
Qed.

Lemma find_first {A} (f : A -> bool) (l1 l2 : list A) (a : A) :
  existsb f l1 = false -> f a = true -> find f (l1 ++ a :: l2) = Some a.
Proof.
  induction l1 as [|b l1 IH]; simpl; intros N F.
  - rewrite F. reflexivity.
  - destruct (f b); simpl in N; [discriminate | auto].
Qed.

Lemma first_match_split {A} (f : A -> bool) (l : list A) :
  existsb f l = true ->
  exists l1 a l2, l = l1 ++ a :: l2 /\ existsb f l1 = false /\ f a = true.
Proof.
  induction l as [|b l IH]; simpl; [discriminate|].
  destruct (f b) eqn:F; simpl.
  - intros _. exists [], b, l. auto.
  - intros E. destruct (IH E) as (l1 & a & l2 & -> & N & Fa).
    exists (b :: l1), a, l2. simpl. rewrite F. auto.
Qed.

Lemma delete_first_none (q : filter_doc) (c : collection) :
  existsb (matches q) c = false ->
  delete_first q c = ({| deleted_count := 0 |}, c).
Proof.
  induction c as [|d c IH]; simpl; [reflexivity|].
  destruct (matches q d); simpl; [discriminate|].
  intros N. rewrite (IH N). reflexivity.
Qed.

Lemma delete_first_some (q : filter_doc) (c1 c2 : collection) (d : document) :
  existsb (matches q) c1 = false -> matches q d = true ->
  delete_first q (c1 ++ d :: c2) = ({| deleted_count := 1 |}, c1 ++ c2).
Proof.
  induction c1 as [|b c1 IH]; simpl; intros N F.
  - rewrite F. reflexivity.
  - destruct (matches q b); simpl in N; [discriminate|].
    rewrite (IH N F). reflexivity.
Qed.

Lemma existsb_matches_by_id (oid : ObjectId.t) (c : collection) :
  existsb (matches (by_id oid)) c = existsb (has_id (VObjectId oid)) c.
Proof.
  induction c as [|d c IH]; cbn [existsb]; [reflexivity|].
  rewrite matches_by_id, IH. reflexivity.
Qed.

Lemma find_by_id (oid : ObjectId.t) (c : collection) :
  find (matches (by_id oid)) c = find (has_id (VObjectId oid)) c.
Proof.
  induction c as [|d c IH]; cbn [find]; [reflexivity|].
  rewrite matches_by_id, IH. reflexivity.
Qed.

(** The commands the handlers send with the filter [{"_id": oid}] are
    always encoded. *)
Lemma find_one_by_id (oid : ObjectId.t) (p : projection) (c : collection) :
  find_one (by_id oid) p c
  = (Ok (option_map (project p) (find (has_id (VObjectId oid)) c)), c).
Proof. unfold find_one, encoded. cbn [by_id encodable_filter forallb snd encodable_condition encodable andb]. rewrite find_by_id. reflexivity. Qed.

Lemma delete_one_by_id (oid : ObjectId.t) (c : collection) :
  delete_one (by_id oid) c
  = (Ok (fst (delete_first (by_id oid) c)), snd (delete_first (by_id oid) c)).
Proof. reflexivity. Qed.

Lemma update_one_by_id (oid : ObjectId.t) (u : Dict.t value) (c : collection) :
  update_one (by_id oid) u c
  = if encodable (VDict u)
    then (Ok (fst (update_first (by_id oid) u c)),
          snd (update_first (by_id oid) u c))
    else (Raise OverflowError, c).
Proof.
  unfold update_one, encoded.
  cbn [by_id encodable_filter forallb snd encodable_condition andb].
  change (encodable (VObjectId oid)) with true. cbn [andb].
  destruct (encodable (VDict u)); reflexivity.
Qed.

(** Under the unique index, the documents after the first one with a
    given [_id] do not have it. *)
Lemma unique_ids_split (v : value) (c1 c2 : collection) (d : document) :
  unique_ids (c1 ++ d :: c2) = true -> has_id v d = true ->
  existsb (has_id v) c1 = false /\ existsb (has_id v) c2 = false.
Proof.
  induction c1 as [|b c1 IH]; simpl; intros U F.
  - split; [reflexivity|].
    unfold has_id in F. destruct (Dict.get "_id" d) as [w|]; [|discriminate].
    apply value_eqb_eq in F. subst w.
    apply andb_true_iff in U. destruct U as [U _].
    apply negb_true_iff in U. exact U.
  - destruct (Dict.get "_id" b) as [w|] eqn:G; [|discriminate].
    apply andb_true_iff in U. destruct U as [N U].
    destruct (IH U F) as [I1 I2]. split; [|exact I2].
    rewrite I1, orb_false_r.
    destruct (has_id v b) eqn:Fb; [|reflexivity].
    unfold has_id in Fb. rewrite G in Fb. apply value_eqb_eq in Fb. subst w.
    apply negb_true_iff in N. rewrite existsb_app in N. simpl in N.
    rewrite F in N. simpl in N. rewrite orb_true_r in N. discriminate N.
Qed.

(** ** Delete (C6) *)

Lemma delete_student_run (id : string) (oid : ObjectId.t) (c : collection) :
  ObjectId.of_str id = Some oid ->
  app_delete_student id c =
    (if deleted_count (fst (delete_first (by_id oid) c)) =? 1
     then JSONResponse 200 (JDict [])
     else JSONResponse 404 (student_not_found id),
     snd (delete_first (by_id oid) c)).
Proof.
  intros E. unfold app_delete_student, delete_student, bind.
  rewrite (ObjectId_valid id oid c E). fold (by_id oid).
  rewrite delete_one_by_id.
  destruct (delete_first (by_id oid) c) as [[n] c']. cbn [fst snd deleted_count].
  destruct (n =? 1); reflexivity.
Qed.

(** C6: with a valid id, the delete is scoped to that id.  A deleted count
    of one answers 200 with the empty object, a deleted count of zero
    answers 404 naming the id.  The first document with the id is the one
    removed; when no document has the id the collection is left as it was;
    and, the identifiers of the collection being unique, deleting the same
    id a second time answers 404. *)
Theorem C6_delete_student (id : string) (oid : ObjectId.t) (c : collection) :
  ObjectId.of_str id = Some oid ->
  app_delete_student id c =
    (if deleted_count (fst (delete_first (by_id oid) c)) =? 1
     then JSONResponse 200 (JDict [])
     else JSONResponse 404 (student_not_found id),
     snd (delete_first (by_id oid) c))
  /\ (forall c1 d c2,
         c = c1 ++ d :: c2 ->
         existsb (has_id (VObjectId oid)) c1 = false ->
         doc_id d = Some oid ->
         app_delete_student id c = (JSONResponse 200 (JDict []), c1 ++ c2))
  /\ (existsb (has_id (VObjectId oid)) c = false ->
      app_delete_student id c = (JSONResponse 404 (student_not_found id), c))
  /\ (unique_ids c = true ->
      fst (app_delete_student id (snd (app_delete_student id c)))
      = JSONResponse 404 (student_not_found id)).
Proof.
  intros E.
  assert (NF : forall c0, existsb (has_id (VObjectId oid)) c0 = false ->
      app_delete_student id c0 = (JSONResponse 404 (student_not_found id), c0)).
  { intros c0 N. rewrite (delete_student_run id oid c0 E).
    rewrite delete_first_none by (rewrite existsb_matches_by_id; exact N).
    reflexivity. }
  assert (F : forall c1 d c2,
      existsb (has_id (VObjectId oid)) c1 = false ->
      doc_id d = Some oid ->
      app_delete_student id (c1 ++ d :: c2)
      = (JSONResponse 200 (JDict []), c1 ++ c2)).
  { intros c1 d c2 N D. rewrite (delete_student_run id oid _ E).
    rewrite (delete_first_some (by_id oid) c1 c2 d).
    - reflexivity.
    - rewrite existsb_matches_by_id. exact N.
    - rewrite matches_by_id. apply has_id_doc_id. exact D. }
  split; [exact (delete_student_run id oid c E)|].
  split; [intros c1 d c2 -> N D; apply F; assumption|].
  split; [apply NF|].
  intros U.
  destruct (existsb (has_id (VObjectId oid)) c) eqn:X.
  - destruct (first_match_split _ _ X) as (c1 & d & c2 & -> & N & Fd).
    rewrite (F c1 d c2 N (proj1 (has_id_doc_id oid d) Fd)). cbn [snd].
    destruct (unique_ids_split _ _ _ _ U Fd) as [N1 N2].
    rewrite NF; [reflexivity|].
    rewrite existsb_app, N1, N2. reflexivity.
  - rewrite (NF c X). cbn [snd]. rewrite (NF c X). reflexivity.
Qed.

Lemma C6_delete_student_witness :
  ObjectId.of_str jane_id = Some jane_oid
  /\ app_delete_student jane_id [jane_doc] = (JSONResponse 200 (JDict []), [])
  /\ app_delete_student jane_id [] = (JSONResponse 404 (student_not_found jane_id), []).
Proof.
  split; [reflexivity|].
  split.
  - exact (proj1 (proj2 (C6_delete_student jane_id jane_oid [jane_doc] eq_refl))
             [] jane_doc [] eq_refl eq_refl eq_refl).
  - exact (proj1 (proj2 (proj2 (C6_delete_student jane_id jane_oid [] eq_refl)))
             eq_refl).
Defined.

(** ** Fetch (C5) *)

Lemma get_filter_keys {V} (keep : string -> bool) (k : string) (d : Dict.t V) :
  Dict.get k (filter (fun kv => keep (fst kv)) d)
  = if keep k then Dict.get k d else None.
Proof.
  induction d as [|[k' v] d IH]; cbn [filter Dict.get fst].
  - destruct (keep k); reflexivity.
  - destruct (String.eqb_spec k k') as [<-|N].
    + destruct (keep k) eqn:K; cbn [Dict.get].
      * rewrite String.eqb_refl. reflexivity.
      * rewrite IH. reflexivity.
    + destruct (keep k'); cbn [Dict.get]; [|exact IH].
      destruct (String.eqb_spec k k'); [contradiction | exact IH].
Qed.

Lemma get_project (p : projection) (k : string) (d : document) :
  Dict.get k (project p d)
  = if match Dict.get k p with
       | Some keep => keep
       | None => if existsb (fun kb => snd kb) p then String.eqb k "_id" else true
       end
    then Dict.get k d else None.
Proof.
  unfold project.
  exact (get_filter_keys
           (fun k => match Dict.get k p with
                     | Some keep => keep
                     | None => if existsb (fun kb => snd kb) p
                               then String.eqb k "_id" else true
                     end) k d).
Qed.

Lemma student_doc_fields (d : document) :
  is_student_doc d = true ->
  exists oid n a addr ci co,
    Dict.get "_id" d = Some (VObjectId oid)
    /\ Dict.get "name" d = Some (VStr n)
    /\ Dict.get "age" d = Some (VInt a)
    /\ Dict.get "address" d = Some (VDict addr)
    /\ Dict.get "city" addr = Some (VStr ci)
    /\ Dict.get "country" addr = Some (VStr co).
Proof.
  unfold is_student_doc. intros S.
  destruct (Dict.get "_id" d) as [[ | | |oid| ]|]; try discriminate.
  destruct (Dict.get "name" d) as [[ | |n| | ]|]; try discriminate.
  destruct (Dict.get "age" d) as [[ |a| | | ]|]; try discriminate.
  destruct (Dict.get "address" d) as [[ | | | |addr]|]; try discriminate.
  destruct (Dict.get "city" addr) as [[ | |ci| | ]|] eqn:C; try discriminate.
  destruct (Dict.get "country" addr) as [[ | |co| | ]|] eqn:K; try discriminate.
  exists oid, n, a, addr, ci, co. auto 7.
Qed.

Lemma detail_view_of_projection {rt : Runtime} (d : document) :
  is_student_doc d = true ->
  option_map GetSingleStudentResponse.to_json
    (GetSingleStudentResponse.from_value (VDict (project [("_id", false)] d)))
  = Some (detail_view d).
Proof.
  intros S. destruct (student_doc_fields d S) as (oid & n & a & addr & ci & co & I & N & A & D & C & K).
  unfold GetSingleStudentResponse.from_value, required_value, detail_view,
    doc_name, doc_age, doc_city, doc_country, doc_address_field.
  rewrite !get_project. cbn. rewrite N, A, D. cbn.
  unfold required_value. rewrite C, K. reflexivity.
Qed.

Lemma fetch_student_found (id : string) (oid : ObjectId.t) (c : collection)
    (d : document) :
  ObjectId.of_str id = Some oid ->
  find (has_id (VObjectId oid)) c = Some d ->
  fetch_student id c = (Ok (project [("_id", false)] d), c).
Proof.
  intros E F. unfold fetch_student, bind.
  rewrite (ObjectId_valid id oid c E). fold (by_id oid).
  rewrite find_one_by_id, F. reflexivity.
Qed.

Lemma fetch_student_not_found (id : string) (oid : ObjectId.t) (c : collection) :
  ObjectId.of_str id = Some oid ->
  existsb (has_id (VObjectId oid)) c = false ->
  fetch_student id c
  = (Raise (HTTPException 404 ("Student " ++ id ++ " not found")%string), c).
Proof.
  intros E N. unfold fetch_student, bind.
  rewrite (ObjectId_valid id oid c E). fold (by_id oid).
  rewrite find_one_by_id, (find_none _ _ N). reflexivity.
Qed.

(** C5: when the id matches a stored student document, the fetch route
    answers 200 with exactly [{name, age, address: {city, country}}] of
    that document, and the document the handler returns has no [_id];
    when no document matches, it answers 404 with the detail
    ["Student {id} not found"].  The collection is not changed. *)
Theorem C5_fetch_student (rt : Runtime) (id : string) (oid : ObjectId.t)
    (c : collection) :
  ObjectId.of_str id = Some oid ->
  (forall d,
      find (has_id (VObjectId oid)) c = Some d ->
      is_student_doc d = true ->
      app_get_student id c = (JSONResponse 200 (detail_view d), c)
      /\ (exists r, fetch_student id c = (Ok r, c) /\ Dict.get "_id" r = None))
  /\ (existsb (has_id (VObjectId oid)) c = false ->
      app_get_student id c = (JSONResponse 404 (student_not_found id), c)).
Proof.
  intros E. split.
  - intros d F S. split.
    + unfold app_get_student. rewrite (fetch_student_found id oid c d E F).
      unfold respond. cbn [fst snd].
      rewrite (detail_view_of_projection d S). reflexivity.
    + exists (project [("_id", false)] d). split.
      * exact (fetch_student_found id oid c d E F).
      * rewrite get_project. reflexivity.
  - intros N. unfold app_get_student.
    rewrite (fetch_student_not_found id oid c E N). reflexivity.
Qed.

Lemma C5_fetch_student_witness :
  ObjectId.of_str jane_id = Some jane_oid
  /\ app_get_student (rt := example_runtime) jane_id [jane_doc]
     = (JSONResponse 200 jane_json, [jane_doc])
  /\ app_get_student (rt := example_runtime) jane_id []
     = (JSONResponse 404
          (JDict [("detail", JStr "Student 654f1a2b3c4d5e6f70819203 not found")]),
        []).
Proof.
  split; [reflexivity|].
  split.
  - exact (proj1 (proj1 (C5_fetch_student example_runtime jane_id jane_oid
                           [jane_doc] eq_refl) jane_doc eq_refl eq_refl)).
  - exact (proj2 (C5_fetch_student example_runtime jane_id jane_oid [] eq_refl)
             eq_refl).
Defined.

(** ** Create (C4) *)

Lemma project_nothing (d : document) : project [] d = d.
Proof.
  unfold project. cbn. induction d as [|kv d IH]; cbn; [reflexivity|].
  rewrite IH. reflexivity.
Qed.

Lemma model_dump_without_id (s : StudentModel.t) :
  StudentModel.model_dump true ["id"] s
  = [("name", VStr (StudentModel.name s));
     ("age", VInt (StudentModel.age s));
     ("address",
       VDict [("city", VStr (AddressModel.city (StudentModel.address s)));
              ("country", VStr (AddressModel.country (StudentModel.address s)))])].
Proof. reflexivity. Qed.

Lemma has_id_student_doc (oid : ObjectId.t) (s : StudentModel.t) :
  has_id (VObjectId oid) (student_doc oid s) = true.
Proof. unfold has_id. cbn. apply ObjectId_eqb_refl. Qed.

Lemma encodable_student_doc (oid : ObjectId.t) (s : StudentModel.t) :
  encodable (VDict (student_doc oid s)) = fits_int64 (StudentModel.age s).
Proof. cbn. rewrite andb_true_r. reflexivity. Qed.

(** What [insert_one] does with the dump of a student: the encoder raises
    on an age outside 8 bytes, the unique index on an identifier that is
    taken, and otherwise the document is appended. *)
Lemma insert_one_student (new_oid : ObjectId.t) (student : StudentModel.t)
    (c : collection) :
  insert_one new_oid (StudentModel.model_dump true ["id"] student) c
  = if fits_int64 (StudentModel.age student) then
      if existsb (has_id (VObjectId new_oid)) c then (Raise DuplicateKeyError, c)
      else (Ok {| inserted_id := VObjectId new_oid |},
            c ++ [student_doc new_oid student])
    else (Raise OverflowError, c).
Proof.
  unfold insert_one. rewrite model_dump_without_id.
  cbn [Dict.get Dict.remove String.eqb Ascii.eqb Bool.eqb]. cbv zeta.
  fold (student_doc new_oid student). rewrite encodable_student_doc.
  unfold encoded. destruct (fits_int64 (StudentModel.age student)); reflexivity.
Qed.

Lemma create_student_run {rt : Runtime} (new_oid : ObjectId.t)
    (student : StudentModel.t) (c : collection) :
  existsb (has_id (VObjectId new_oid)) c = false ->
  fits_int64 (StudentModel.age student) = true ->
  create_student new_oid student c
  = (Ok (CreateStudentResponse.mk (ObjectId.to_str new_oid)),
     c ++ [student_doc new_oid student]).
Proof.
  intros N A. unfold create_student. unfold bind at 1.
  rewrite insert_one_student, A, N. cbn [inserted_id].
  fold (by_id new_oid). unfold bind at 1. rewrite find_one_by_id.
  rewrite (find_first _ c [] (student_doc new_oid student) N
             (has_id_student_doc new_oid student)).
  cbn [option_map]. rewrite project_nothing. reflexivity.
Qed.

Lemma create_student_overflow {rt : Runtime} (new_oid : ObjectId.t)
    (student : StudentModel.t) (c : collection) :
  fits_int64 (StudentModel.age student) = false ->
  create_student new_oid student c = (Raise OverflowError, c).
Proof.
  intros A. unfold create_student. unfold bind at 1.
  rewrite insert_one_student, A. reflexivity.
Qed.

(** C4, as the specification states it, fails: not every create request
    that passes validation inserts a document and is answered 201.  An
    [age] of [2^63] validates, the driver cannot encode it, and the route
    answers with the server error of the unhandled [OverflowError]; nothing
    is inserted. *)
Lemma C4_age_outside_8_bytes_is_not_created :
  let body :=
    JDict [("name", JStr "Jane Doe"); ("age", JInt 9223372036854775808);
           ("address", JDict [("city", JStr "Agra"); ("country", JStr "India")])] in
  is_valid (StudentModel.validate (rt := example_runtime) body) = true
  /\ app_post_students (rt := example_runtime) jane_oid body []
     = (ServerError OverflowError, []).
Proof. cbv zeta. split; reflexivity. Qed.

(** C4, amended: the document handed to [insert_one] carries no identifier
    field, whatever [id] the client sent.  With [new_oid] the identifier
    the store assigns (one no stored document has) and an age that fits 8
    bytes, exactly one document is appended, made of [new_oid] and the
    student's name, age and address, and the route answers 201 with
    [{"id": str(new_oid)}].  With an age outside 8 bytes the driver raises
    [OverflowError]: the route answers 500 and nothing is inserted. *)
Theorem C4_create_student (rt : Runtime) (new_oid : ObjectId.t)
    (body : json) (student : StudentModel.t) (c : collection) :
  StudentModel.validate body = Valid student ->
  existsb (has_id (VObjectId new_oid)) c = false ->
  Dict.get "_id" (StudentModel.model_dump true ["id"] student) = None
  /\ Dict.get "id" (StudentModel.model_dump true ["id"] student) = None
  /\ (fits_int64 (StudentModel.age student) = true ->
      create_student new_oid student c
      = (Ok (CreateStudentResponse.mk (ObjectId.to_str new_oid)),
         c ++ [student_doc new_oid student])
      /\ app_post_students new_oid body c
         = (JSONResponse 201 (JDict [("id", JStr (ObjectId.to_str new_oid))]),
            c ++ [student_doc new_oid student]))
  /\ (fits_int64 (StudentModel.age student) = false ->
      app_post_students new_oid body c = (ServerError OverflowError, c)).
Proof.
  intros V N.
  split; [reflexivity|]. split; [reflexivity|]. split.
  - intros A. split; [exact (create_student_run new_oid student c N A)|].
    unfold app_post_students.
    rewrite V, (create_student_run new_oid student c N A). reflexivity.
  - intros A. unfold app_post_students.
    rewrite V, (create_student_overflow new_oid student c A). reflexivity.
Qed.

Lemma C4_create_student_witness :
  app_post_students (rt := example_runtime) jane_oid
    (JDict [("id", JStr "my-own-id"); ("name", JStr "Jane Doe"); ("age", JInt 22);
            ("address", JDict [("city", JStr "Agra"); ("country", JStr "India")])])
    []
  = (JSONResponse 201 (JDict [("id", JStr jane_id)]), [jane_doc]).
Proof.
  exact (proj2 (proj1 (proj2 (proj2
    (C4_create_student example_runtime jane_oid
       (JDict [("id", JStr "my-own-id"); ("name", JStr "Jane Doe"); ("age", JInt 22);
               ("address", JDict [("city", JStr "Agra"); ("country", JStr "India")])])
       (StudentModel.mk (Some "my-own-id") "Jane Doe" 22 jane_address)
       [] eq_refl eq_refl))) eq_refl)).
Defined.

(** ** Create, then fetch (C9) *)

Lemma app_get_student_found {rt : Runtime} (id : string) (oid : ObjectId.t)
    (c : collection) (d : document) :
  ObjectId.of_str id = Some oid ->
  find (has_id (VObjectId oid)) c = Some d ->
  is_student_doc d = true ->
  app_get_student id c = (JSONResponse 200 (detail_view d), c).
Proof.
  intros E F S. unfold app_get_student.
  rewrite (fetch_student_found id oid c d E F).
  unfold respond. cbn [fst snd].
  rewrite (detail_view_of_projection d S). reflexivity.
Qed.

(** C9, as the specification states it, fails: not every valid creation
    payload comes back from a fetch as it was sent.  A payload with an
    [age] of [2^63] is valid and is not created at all (500, no id to
    fetch); a payload with the [age] [true] is created and comes back with
    the [age] [1]. *)
Lemma C9_no_round_trip_for_every_valid_payload :
  let address := JDict [("city", JStr "Agra"); ("country", JStr "India")] in
  let big :=
    JDict [("name", JStr "Jane Doe"); ("age", JInt 9223372036854775808);
           ("address", address)] in
  let flag :=
    JDict [("name", JStr "Jane Doe"); ("age", JBool true); ("address", address)] in
  is_valid (StudentModel.validate (rt := example_runtime) big) = true
  /\ app_post_students (rt := example_runtime) jane_oid big []
     = (ServerError OverflowError, [])
  /\ is_valid (StudentModel.validate (rt := example_runtime) flag) = true
  /\ fst (app_post_students (rt := example_runtime) jane_oid flag [])
     = JSONResponse 201 (JDict [("id", JStr jane_id)])
  /\ fst (app_get_student (rt := example_runtime) jane_id
            (snd (app_post_students (rt := example_runtime) jane_oid flag [])))
     = JSONResponse 200
         (JDict [("name", JStr "Jane Doe"); ("age", JInt 1); ("address", address)]).
Proof. cbv zeta. repeat split. Qed.

(** C9, amended: a creation payload that validates to [student], with an
    age that fits 8 bytes, is created under the identifier [new_oid] the
    store assigns (12 bytes, not yet in the collection); fetching the id of
    the creation response then answers 200 with the validated name, age
    and address.  For a payload that is itself
    [{name: str, age: int, address: {city: str, country: str}}] the fetched
    body is the payload.  A payload whose age is outside 8 bytes is not
    created: the create route answers 500. *)
Theorem C9_create_then_fetch (rt : Runtime) (new_oid : ObjectId.t)
    (body : json) (student : StudentModel.t) (c : collection) :
  StudentModel.validate body = Valid student ->
  existsb (has_id (VObjectId new_oid)) c = false ->
  List.length (ObjectId.binary new_oid) = 12%nat ->
  (fits_int64 (StudentModel.age student) = true ->
   exists id c',
     app_post_students new_oid body c
     = (JSONResponse 201 (JDict [("id", JStr id)]), c')
     /\ app_get_student id c' = (JSONResponse 200 (student_json student), c')
     /\ (forall n a ci co,
            body = JDict [("name", JStr n); ("age", JInt a);
                          ("address", JDict [("city", JStr ci); ("country", JStr co)])] ->
            app_get_student id c' = (JSONResponse 200 body, c')))
  /\ (fits_int64 (StudentModel.age student) = false ->
      app_post_students new_oid body c = (ServerError OverflowError, c)).
Proof.
  intros V N L. split.
  - intros A.
    exists (ObjectId.to_str new_oid), (c ++ [student_doc new_oid student]).
    assert (G : app_get_student (ObjectId.to_str new_oid)
                  (c ++ [student_doc new_oid student])
                = (JSONResponse 200 (student_json student),
                   c ++ [student_doc new_oid student])).
    { apply (app_get_student_found _ new_oid _ (student_doc new_oid student)).
      - exact (of_str_to_str new_oid L).
      - exact (find_first _ c [] _ N (has_id_student_doc new_oid student)).
      - reflexivity. }
    split; [|split].
    + unfold app_post_students.
      rewrite V, (create_student_run new_oid student c N A). reflexivity.
    + exact G.
    + intros n a ci co B. rewrite G. subst body.
      cbv in V. inversion V. reflexivity.
  - intros A. unfold app_post_students.
    rewrite V, (create_student_overflow new_oid student c A). reflexivity.
Qed.

Lemma C9_create_then_fetch_witness :
  exists id c',
    app_post_students (rt := example_runtime) jane_oid jane_json []
    = (JSONResponse 201 (JDict [("id", JStr id)]), c')
    /\ app_get_student (rt := example_runtime) id c'
       = (JSONResponse 200 jane_json, c').
Proof.
  destruct (proj1 (C9_create_then_fetch example_runtime jane_oid jane_json jane []
                     eq_refl eq_refl eq_refl) eq_refl) as (id & c' & P & G & _).
  exists id, c'. split; [exact P | exact G].
Defined.

(** ** Update (C3) *)

Lemma required_valid {A} (key : string) (v : json -> validated A)
    (d : Dict.t json) (a : A) :
  required key v d = Valid a ->
  exists x, Dict.get key d = Some x /\ v x = Valid a.
Proof.
  unfold required. destruct (Dict.get key d) as [x|]; [|discriminate].
  intros E. exists x. split; [reflexivity|].
  destruct (v x); [exact E | discriminate E].
Qed.

Lemma validated_pair_valid {A B} (a : validated A) (b : validated B) (p : A * B) :
  validated_pair a b = Valid p -> a = Valid (fst p) /\ b = Valid (snd p).
Proof.
  destruct a, b; cbn; try discriminate. intros E. inversion E. auto.
Qed.

Lemma validated_map_valid {A B} (f : A -> B) (r : validated A) (b : B) :
  validated_map f r = Valid b -> exists a, r = Valid a /\ b = f a.
Proof.
  destruct r as [a|]; cbn; [|discriminate]. intros E. inversion E. eauto.
Qed.

Lemma AddressModel_validate_fields_set (x : json) (a : AddressModel.t) :
  AddressModel.validate x = Valid a ->
  AddressModel.model_fields_set a = ["city"; "country"].
Proof.
  destruct x; try discriminate. unfold AddressModel.validate.
  intros E. apply validated_map_valid in E. destruct E as (p & _ & ->).
  reflexivity.
Qed.

(** A validated update body has all three fields set, and a complete
    address when it has one. *)
Lemma UpdateStudentModel_validate_fields_set {rt : Runtime} (body : json)
    (student : UpdateStudentModel.t) :
  UpdateStudentModel.validate body = Valid student ->
  UpdateStudentModel.model_fields_set student = ["name"; "age"; "address"]
  /\ (forall a, UpdateStudentModel.address student = Some a ->
        AddressModel.model_fields_set a = ["city"; "country"]).
Proof.
  destruct body as [ | | | | | |d]; try discriminate.
  unfold UpdateStudentModel.validate. intros E.
  apply validated_map_valid in E. destruct E as (p & E & ->).
  split; [reflexivity|]. cbn [UpdateStudentModel.address].
  apply validated_pair_valid in E. destruct E as [_ E].
  apply validated_pair_valid in E. destruct E as [_ E].
  apply required_valid in E. destruct E as (x & _ & E).
  intros a Ea. rewrite Ea in E.
  destruct x; cbn [validate_optional] in E; try discriminate E;
    apply validated_map_valid in E; destruct E as (a' & E & Es);
    inversion Es; subst a'; exact (AddressModel_validate_fields_set _ a E).
Qed.

Lemma update_first_none (q : filter_doc) (u : Dict.t value) (c : collection) :
  existsb (matches q) c = false ->
  update_first q u c = ({| matched_count := 0; modified_count := 0 |}, c).
Proof.
  induction c as [|d c IH]; cbn [update_first existsb]; [reflexivity|].
  destruct (matches q d); cbn [orb]; [discriminate|].
  intros N. rewrite (IH N). reflexivity.
Qed.

Lemma update_first_some (q : filter_doc) (u : Dict.t value)
    (c1 c2 : collection) (d : document) :
  existsb (matches q) c1 = false -> matches q d = true ->
  update_first q u (c1 ++ d :: c2)
  = ({| matched_count := 1;
        modified_count := if document_eqb d (apply_set u d) then 0 else 1 |},
     c1 ++ apply_set u d :: c2).
Proof.
  induction c1 as [|b c1 IH]; cbn [update_first existsb app]; intros N F.
  - rewrite F. reflexivity.
  - destruct (matches q b); cbn [orb] in N; [discriminate|].
    rewrite (IH N F). reflexivity.
Qed.

(** A write that modifies no document leaves the collection as it was. *)
Lemma update_first_unmodified (q : filter_doc) (u : Dict.t value) (c : collection) :
  modified_count (fst (update_first q u c)) <> 1 ->
  snd (update_first q u c) = c.
Proof.
  intros M. destruct (existsb (matches q) c) eqn:X.
  - destruct (first_match_split _ _ X) as (c1 & d & c2 & -> & N & F).
    rewrite (update_first_some q u c1 c2 d N F) in *. cbn [fst snd modified_count] in *.
    destruct (document_eqb d (apply_set u d)) eqn:E; [|contradiction M; reflexivity].
    apply document_eqb_eq in E. rewrite <- E. reflexivity.
  - rewrite (update_first_none q u c X). reflexivity.
Qed.

Lemma truthy_find_by_id (v : value) (c : collection) :
  truthy_doc (option_map (project []) (find (has_id v) c))
  = existsb (has_id v) c.
Proof.
  induction c as [|d c IH]; cbn [find existsb]; [reflexivity|].
  destruct (has_id v d) eqn:F; cbn [orb option_map]; [|exact IH].
  rewrite project_nothing. exact (has_id_nonempty v d F).
Qed.

Lemma probe_run (id : string) (oid : ObjectId.t) (c : collection) :
  ObjectId.of_str id = Some oid ->
  bind (ObjectId_ id)
    (fun oid => bind (find_one [("_id", Eq (VObjectId oid))] [])
       (fun existing_student =>
          if truthy_doc existing_student then ret []
          else raise (HTTPException 404 ("Student " ++ id ++ " not found")%string))) c
  = (probe_outcome id oid c, c).
Proof.
  intros E. unfold bind at 1. rewrite (ObjectId_valid id oid c E).
  unfold bind, probe_outcome. fold (by_id oid).
  rewrite find_one_by_id, truthy_find_by_id.
  destruct (existsb (has_id (VObjectId oid)) c); reflexivity.
Qed.

Lemma update_student_run (id : string) (oid : ObjectId.t)
    (student : UpdateStudentModel.t) (c : collection) :
  ObjectId.of_str id = Some oid ->
  update_student id student c
  = if (0 <? List.length (update_set student))%nat then
      if encodable (VDict (update_set student)) then
        let rc := update_first (by_id oid) (update_set student) c in
        if modified_count (fst rc) =? 1 then (Ok [], snd rc)
        else (probe_outcome id oid (snd rc), snd rc)
      else (Raise OverflowError, c)
    else (probe_outcome id oid c, c).
Proof.
  intros E. unfold update_student. fold (update_set student).
  destruct (0 <? List.length (update_set student))%nat.
  - unfold bind at 1. rewrite (ObjectId_valid id oid c E).
    unfold bind at 1. fold (by_id oid). rewrite update_one_by_id.
    destruct (encodable (VDict (update_set student))); [|reflexivity].
    cbv zeta.
    destruct (update_first (by_id oid) (update_set student) c) as [r c'].
    cbn [fst snd]. destruct (modified_count r =? 1); [reflexivity|].
    exact (probe_run id oid c' E).
  - exact (probe_run id oid c E).
Qed.

Lemma get_set_same {V} (k : string) (v : V) (d : Dict.t V) :
  Dict.get k (Dict.set k v d) = Some v.
Proof.
  induction d as [|[k' v'] d IH]; cbn [Dict.set Dict.get].
  - rewrite String.eqb_refl. reflexivity.
  - destruct (String.eqb_spec k k') as [->|N]; cbn [Dict.get].
    + rewrite String.eqb_refl. reflexivity.
    + destruct (String.eqb_spec k k'); [contradiction | exact IH].
Qed.

Lemma get_set_other {V} (k k' : string) (v : V) (d : Dict.t V) :
  k <> k' -> Dict.get k (Dict.set k' v d) = Dict.get k d.
Proof.
  intros N. induction d as [|[k'' v''] d IH]; cbn [Dict.set Dict.get].
  - destruct (String.eqb_spec k k'); [contradiction | reflexivity].
  - destruct (String.eqb_spec k' k'') as [<-|N']; cbn [Dict.get].
    + destruct (String.eqb_spec k k'); [contradiction | reflexivity].
    + destruct (String.eqb k k''); [reflexivity | exact IH].
Qed.

Lemma get_not_in {V} (k : string) (d : Dict.t V) :
  ~ In k (Dict.keys d) -> Dict.get k d = None.
Proof.
  induction d as [|[k' v] d IH]; cbn [Dict.keys map fst In Dict.get]; [reflexivity|].
  intros N. destruct (String.eqb_spec k k') as [->|_].
  - contradiction N. left. reflexivity.
  - apply IH. intros I. apply N. right. exact I.
Qed.

(** [$set] overwrites the fields of the update set and leaves every other
    field of the document as it was. *)
Lemma get_apply_set (u : Dict.t value) (d : document) (k : string) :
  NoDup (Dict.keys u) ->
  Dict.get k (apply_set u d)
  = match Dict.get k u with
    | Some v => Some v
    | None => Dict.get k d
    end.
Proof.
  unfold apply_set. revert d.
  induction u as [|[k' v'] u IH]; intros d ND; cbn [fold_left Dict.get fst snd].
  - reflexivity.
  - cbn [Dict.keys map fst] in ND. inversion ND as [|? ? NI ND']; subst.
    rewrite (IH _ ND').
    destruct (String.eqb_spec k k') as [->|N].
    + rewrite (get_not_in k' u NI). apply get_set_same.
    + rewrite (get_set_other k k' v' d N). reflexivity.
Qed.

(** The update set has the fields that are set in the body and not
    [None], and nothing else. *)
Lemma update_set_spec (student : UpdateStudentModel.t) :
  let fields_set := UpdateStudentModel.model_fields_set student in
  Dict.get "name" (update_set student)
  = (if str_in "name" fields_set
     then option_map VStr (UpdateStudentModel.name student) else None)
  /\ Dict.get "age" (update_set student)
     = (if str_in "age" fields_set
        then option_map VInt (UpdateStudentModel.age student) else None)
  /\ Dict.get "address" (update_set student)
     = (if str_in "address" fields_set
        then option_map address_value (UpdateStudentModel.address student)
        else None)
  /\ (forall k, k <> "name" -> k <> "age" -> k <> "address" ->
        Dict.get k (update_set student) = None)
  /\ (forall k, Dict.get k (update_set student) <> Some VNone)
  /\ NoDup (Dict.keys (update_set student)).
Proof.
  assert (AV : forall a, VDict (AddressModel.model_dump true a) = address_value a).
  { intros a. unfold AddressModel.model_dump, dump_fields, address_value.
    cbn [negb orb filter map fst snd].
    destruct (str_in "city" (AddressModel.model_fields_set a)),
      (str_in "country" (AddressModel.model_fields_set a)); reflexivity. }
  destruct student as [n a ad fs].
  unfold update_set, UpdateStudentModel.model_dump, dump_fields.
  cbn [UpdateStudentModel.model_fields_set UpdateStudentModel.name
       UpdateStudentModel.age UpdateStudentModel.address filter map fst snd negb orb].
  destruct (str_in "name" fs), (str_in "age" fs), (str_in "address" fs),
    n as [n|], a as [a|], ad as [ad|];
    cbn [filter map fst snd value_of_option is_not_None option_map];
    rewrite ?AV;
    (split; [reflexivity|]); (split; [reflexivity|]); (split; [reflexivity|]);
    (split; [intros k N1 N2 N3; other_key k|]);
    (split; [intros k; never_None k | distinct_keys]).
Qed.

(** C3: with a valid id, the update set holds exactly the fields that are
    set in the body and not [None] (so an absent or null field is never
    written and never clears a field), an address with the value
    [{city, country}] of its fields; with an empty update set no write is
    issued; a write that modifies one document succeeds (204, empty
    object); a write that modifies none, like no write, leaves the
    existence probe to decide, success when a document has the id and 404
    when none has, the collection being left as it was.  The write sets the
    fields of the update set on the first document with the id and changes
    nothing else.  A write the driver refuses to encode (an age outside 8
    bytes) raises [OverflowError] and writes nothing. *)
Theorem C3_update_student (rt : Runtime) (id : string) (oid : ObjectId.t)
    (student : UpdateStudentModel.t) (c : collection) :
  ObjectId.of_str id = Some oid ->
  let fields_set := UpdateStudentModel.model_fields_set student in
  let update_data := update_set student in
  let written := update_one (by_id oid) update_data c in
  let no_such_student :=
    HTTPException 404 ("Student " ++ id ++ " not found")%string in
  (Dict.get "name" update_data
   = (if str_in "name" fields_set
      then option_map VStr (UpdateStudentModel.name student) else None)
   /\ Dict.get "age" update_data
      = (if str_in "age" fields_set
         then option_map VInt (UpdateStudentModel.age student) else None)
   /\ Dict.get "address" update_data
      = (if str_in "address" fields_set
         then option_map address_value (UpdateStudentModel.address student)
         else None)
   /\ (forall k, k <> "name" -> k <> "age" -> k <> "address" ->
         Dict.get k update_data = None)
   /\ (forall k, Dict.get k update_data <> Some VNone))
  /\ (forall r c',
         update_data <> [] -> written = (Ok r, c') -> modified_count r = 1 ->
         update_student id student c = (Ok [], c'))
  /\ (update_data = []
      \/ (exists r c', written = (Ok r, c') /\ modified_count r <> 1) ->
      (existsb (has_id (VObjectId oid)) c = true ->
       update_student id student c = (Ok [], c))
      /\ (existsb (has_id (VObjectId oid)) c = false ->
          update_student id student c = (Raise no_such_student, c)))
  /\ (forall e c',
         update_data <> [] -> written = (Raise e, c') ->
         encodable (VDict update_data) = false
         /\ update_student id student c = (Raise OverflowError, c))
  /\ (forall c1 d c2,
         c = c1 ++ d :: c2 ->
         existsb (has_id (VObjectId oid)) c1 = false ->
         doc_id d = Some oid ->
         update_data <> [] ->
         encodable (VDict update_data) = true ->
         update_student id student c
         = (Ok [], c1 ++ apply_set update_data d :: c2)
         /\ (forall k,
                Dict.get k (apply_set update_data d)
                = match Dict.get k update_data with
                  | Some v => Some v
                  | None => Dict.get k d
                  end))
  /\ (forall body,
         UpdateStudentModel.validate body = Valid student ->
         (forall a,
             UpdateStudentModel.address student = Some a ->
             Dict.get "address" update_data
             = Some (VDict [("city", VStr (AddressModel.city a));
                            ("country", VStr (AddressModel.country a))]))
         /\ (forall c', update_student id student c = (Ok [], c') ->
                        app_patch_student id body c
                        = (JSONResponse 204 (JDict []), c'))
         /\ (forall c', update_student id student c = (Raise no_such_student, c') ->
                        app_patch_student id body c
                        = (JSONResponse 404 (student_not_found id), c'))).
Proof.
  intros E fields_set update_data written no_such_student.
  destruct (update_set_spec student) as (S1 & S2 & S3 & S4 & S5 & ND).
  pose proof (update_student_run id oid student c E) as R.
  fold update_data in R. cbv zeta in R.
  assert (W : written
              = if encodable (VDict update_data)
                then (Ok (fst (update_first (by_id oid) update_data c)),
                      snd (update_first (by_id oid) update_data c))
                else (Raise OverflowError, c))
    by apply update_one_by_id.
  assert (P : forall c0,
             (existsb (has_id (VObjectId oid)) c0 = true ->
              probe_outcome id oid c0 = Ok [])
             /\ (existsb (has_id (VObjectId oid)) c0 = false ->
                 probe_outcome id oid c0 = Raise no_such_student)).
  { intros c0. unfold probe_outcome. split; intros ->; reflexivity. }
  assert (NE : update_data <> [] -> (0 <? List.length update_data)%nat = true).
  { destruct update_data; [congruence | reflexivity]. }
  split; [repeat split; assumption|].
  split; [|split; [|split; [|split]]].
  - intros r c' N Wr M. rewrite Wr in W.
    destruct (encodable (VDict update_data)); [|discriminate W].
    inversion W; subst r c'. rewrite R, (NE N), M. reflexivity.
  - intros [Z|(r & c' & Wr & M)].
    + rewrite Z in R. cbn in R. rewrite R.
      split; intros X;
        [rewrite (proj1 (P c) X) | rewrite (proj2 (P c) X)]; reflexivity.
    + rewrite Wr in W.
      destruct (encodable (VDict update_data)); [|discriminate W].
      inversion W; subst r c'.
      assert (U : snd (update_first (by_id oid) update_data c) = c)
        by (apply update_first_unmodified; exact M).
      destruct (0 <? List.length update_data)%nat.
      * apply Z.eqb_neq in M. rewrite M, U in R. rewrite R.
        split; intros X;
          [rewrite (proj1 (P c) X) | rewrite (proj2 (P c) X)]; reflexivity.
      * rewrite R.
        split; intros X;
          [rewrite (proj1 (P c) X) | rewrite (proj2 (P c) X)]; reflexivity.
  - intros e c' N Wr. rewrite Wr in W.
    destruct (encodable (VDict update_data)); [discriminate W|].
    split; [reflexivity|]. rewrite R, (NE N). reflexivity.
  - intros c1 d c2 C N D NEu En.
    split; [|intros k; apply get_apply_set; exact ND].
    assert (F : matches (by_id oid) d = true)
      by (rewrite matches_by_id; apply has_id_doc_id; exact D).
    assert (N' : existsb (matches (by_id oid)) c1 = false)
      by (rewrite existsb_matches_by_id; exact N).
    rewrite R, (NE NEu), En, C, (update_first_some _ _ c1 c2 d N' F).
    cbn [fst snd modified_count].
    destruct (document_eqb d (apply_set update_data d)); cbn [Z.eqb]; [|reflexivity].
    rewrite (proj1 (P _)); [reflexivity|].
    rewrite existsb_app. cbn [existsb].
    replace (has_id (VObjectId oid) (apply_set update_data d)) with true;
      [rewrite orb_true_r; reflexivity|].
    symmetry. unfold has_id. rewrite (get_apply_set _ _ _ ND).
    rewrite S4 by discriminate.
    apply has_id_doc_id in D. exact D.
  - intros body V. split; [|unfold app_patch_student; rewrite V;
                            split; intros c' ->; reflexivity].
    intros a Ea.
    destruct (UpdateStudentModel_validate_fields_set body student V) as [FS FA].
    unfold update_data. rewrite S3. rewrite FS, Ea. cbn [str_in existsb String.eqb Ascii.eqb Bool.eqb orb option_map].
    unfold address_value. rewrite (FA a Ea). reflexivity.
Qed.

Lemma C3_update_student_witness :
  update_student jane_id
    (UpdateStudentModel.mk None (Some 23) None ["name"; "age"; "address"])
    [jane_doc]
  = (Ok [],
     [[("_id", VObjectId jane_oid); ("name", VStr "Jane Doe"); ("age", VInt 23);
       ("address", VDict [("city", VStr "Agra"); ("country", VStr "India")])]]).
Proof.
  pose proof (C3_update_student example_runtime jane_id jane_oid
                (UpdateStudentModel.mk None (Some 23) None ["name"; "age"; "address"])
                [jane_doc] eq_refl) as W.
  cbv zeta in W. destruct W as (_ & _ & _ & _ & W & _).
  destruct (W [] jane_doc [] eq_refl eq_refl eq_refl) as [G _].
  - discriminate.
  - reflexivity.
  - exact G.
Defined.

(** ** List (C7, C8) *)

Lemma matches_list_query (country : option string) (age : option Z) (d : document) :
  is_student_doc d = true ->
  matches (list_query country age) d = selected country age d.
Proof.
  intros S.
  destruct (student_doc_fields d S) as (oid & n & a & addr & ci & co & I & N & A & D & C & K).
  unfold selected, doc_country, doc_address_field, doc_age.
  rewrite A, D, K.
  destruct country as [[|ch co']|], age as [m|];
    cbn; rewrite ?A, ?D; cbn; rewrite ?K; cbn; rewrite ?andb_true_r; reflexivity.
Qed.

Lemma filter_list_query (country : option string) (age : option Z) (c : collection) :
  student_collection_ok c = true ->
  filter (matches (list_query country age)) c = filter (selected country age) c.
Proof.
  intros S. apply filter_ext_in. intros d I. apply matches_list_query.
  exact (proj1 (forallb_forall _ _) S d I).
Qed.

Lemma list_view_of_projection {rt : Runtime} (d : document) :
  is_student_doc d = true ->
  ListResponseStudent.from_value (VDict (project list_projection d))
  = Some (list_view d).
Proof.
  intros S.
  destruct (student_doc_fields d S) as (oid & n & a & addr & ci & co & I & N & A & D & C & K).
  unfold ListResponseStudent.from_value, required_value, list_view, doc_name, doc_age.
  rewrite !get_project. cbn. rewrite N, A. reflexivity.
Qed.

Lemma validate_items_students {rt : Runtime} (l : list document) :
  forallb is_student_doc l = true ->
  StudentCollection.validate_items (map (project list_projection) l)
  = Some (map list_view l).
Proof.
  induction l as [|d l IH]; cbn [forallb map StudentCollection.validate_items];
    [reflexivity|].
  intros S. apply andb_true_iff in S. destruct S as [Sd Sl].
  rewrite (list_view_of_projection d Sd), (IH Sl). reflexivity.
Qed.

Lemma forallb_filter {A} (f g : A -> bool) (l : list A) :
  forallb f l = true -> forallb f (filter g l) = true.
Proof.
  induction l as [|a l IH]; cbn [forallb filter]; [reflexivity|].
  intros S. apply andb_true_iff in S. destruct S as [Sa Sl].
  destruct (g a); cbn [forallb]; [rewrite Sa|]; auto.
Qed.

Lemma forallb_firstn {A} (f : A -> bool) (n : nat) (l : list A) :
  forallb f l = true -> forallb f (firstn n l) = true.
Proof.
  revert l. induction n as [|n IH]; intros [|a l]; cbn [forallb firstn]; auto.
  intros S. apply andb_true_iff in S. destruct S as [Sa Sl].
  rewrite Sa. cbn. auto.
Qed.

Lemma encodable_list_query (country : option string) (age : option Z) :
  encodable_filter (list_query country age) = age_fits age.
Proof.
  destruct country as [[|ch co]|], age as [n|]; cbn;
    rewrite ?andb_true_r; reflexivity.
Qed.

Lemma list_students_unfold {rt : Runtime} (country : option string)
    (age : option Z) (c : collection) :
  list_students country age c
  = if age_fits age then
      match StudentCollection.new
              (firstn 1000 (map (project list_projection)
                              (filter (matches (list_query country age)) c))) with
      | Some r => (Ok r, c)
      | None => (Raise ValidationError, c)
      end
    else (Raise OverflowError, c).
Proof.
  change (list_students country age c)
    with (bind (find_to_list (list_query country age) list_projection 1000)
            (fun students =>
               match StudentCollection.new students with
               | Some r => ret r
               | None => raise ValidationError
               end) c).
  unfold bind, find_to_list, encoded. rewrite encodable_list_query.
  destruct (age_fits age); [|reflexivity].
  destruct (StudentCollection.new _); reflexivity.
Qed.

Lemma list_students_run {rt : Runtime} (country : option string) (age : option Z)
    (c : collection) :
  student_collection_ok c = true ->
  age_fits age = true ->
  list_students country age c
  = (Ok (StudentCollection.mk
           (map list_view (firstn 1000 (filter (selected country age) c)))),
     c).
Proof.
  intros S A. rewrite list_students_unfold, A.
  unfold StudentCollection.new.
  rewrite (filter_list_query country age c S), firstn_map.
  rewrite validate_items_students; [reflexivity|].
  apply forallb_firstn, forallb_filter. exact S.
Qed.

Lemma list_students_overflow {rt : Runtime} (country : option string)
    (age : option Z) (c : collection) :
  age_fits age = false ->
  list_students country age c = (Raise OverflowError, c).
Proof. intros A. rewrite list_students_unfold, A. reflexivity. Qed.

(** C7, as the specification states it, fails: the country filter does not
    always select the records whose [address.country] equals the given
    value.  Given the empty string, [if country:] skips the filter and every
    record is selected. *)
Lemma C7_empty_country_is_not_a_filter :
  ~ (forall (rt : Runtime) (country : option string) (age : option Z)
            (c : collection),
        student_collection_ok c = true ->
        fst (list_students country age c)
        = Ok (StudentCollection.mk
                (map list_view
                   (firstn 1000 (filter (selected_as_stated country age) c))))).
Proof.
  intros claim.
  pose proof (claim example_runtime (Some "") None [jane_doc] eq_refl) as G.
  discriminate G.
Qed.

(** C7, amended: on a collection of student documents, with an age filter
    that fits 8 bytes (or none), [list_students] returns the list views of
    the first 1000 selected records, where a country that is given and not
    empty selects the records whose [address.country] equals it, an age
    selects the records with at least that age, both together select the
    intersection, and neither selects every record; an empty country is no
    filter.  An age filter outside 8 bytes raises [OverflowError]. *)
Theorem C7_list_students_selects (rt : Runtime) (country : option string)
    (age : option Z) (c : collection) :
  student_collection_ok c = true ->
  (age_fits age = true ->
   list_students country age c
   = (Ok (StudentCollection.mk
            (map list_view (firstn 1000 (filter (selected country age) c)))),
      c))
  /\ (age_fits age = false ->
      list_students country age c = (Raise OverflowError, c))
  /\ (forall d, selected None None d = true)
  /\ (forall co d, co <> "" ->
        selected (Some co) None d = String.eqb (doc_country d) co)
  /\ (forall n d, selected None (Some n) d = (n <=? doc_age d))
  /\ (forall co n d,
        selected (Some co) (Some n) d
        = selected (Some co) None d && selected None (Some n) d)
  /\ (forall a d, selected (Some "") a d = selected None a d).
Proof.
  intros S. split; [exact (list_students_run country age c S)|].
  split; [exact (list_students_overflow country age c)|].
  unfold selected. repeat split.
  - intros [|ch co] d N; [contradiction N; reflexivity|]. apply andb_true_r.
  - intros [|ch co] n d; cbn; rewrite ?andb_true_r; reflexivity.
Qed.

Lemma C7_list_students_selects_witness :
  list_students (rt := example_runtime) (Some "India") (Some 21)
    [jane_doc; rahul_doc]
  = (Ok (StudentCollection.mk [ListResponseStudent.mk "Jane Doe" 22]),
     [jane_doc; rahul_doc]).
Proof.
  exact (proj1 (C7_list_students_selects example_runtime (Some "India") (Some 21)
                  [jane_doc; rahul_doc] eq_refl) eq_refl).
Defined.

(** C8, as the specification states it, fails: not every list request is
    answered with an object [{"data": [...]}].  An [age] parameter that
    validates to an integer outside 8 bytes makes the driver raise
    [OverflowError] when it encodes the filter, and the route answers with
    the server error of the unhandled exception. *)
Lemma C8_age_outside_8_bytes_is_a_server_error :
  ~ (forall (rt : Runtime) (country : option string) (age : option string)
            (c : collection),
        student_collection_ok c = true ->
        (forall a, age = Some a -> str_as_int a <> None) ->
        exists items,
          fst (app_get_students country age c)
          = JSONResponse 200 (JDict [("data", JList items)])).
Proof.
  intros claim.
  destruct (claim example_runtime None (Some "9223372036854775808") [jane_doc]
              eq_refl) as [items G].
  - intros a E. inversion E. discriminate.
  - discriminate G.
Qed.

(** C8, amended: on a collection of student documents, a list request
    whose [age] parameter is absent or an integer that fits 8 bytes is
    answered 200 with the object [{"data": [...]}] whose elements are the
    [{name, age}] of the first 1000 selected records, in order: exactly
    those two fields, at most 1000 elements.  An [age] that is not an
    integer is refused by validation (422); one outside 8 bytes is a server
    error. *)
Theorem C8_list_response (rt : Runtime) (country : option string)
    (age : option string) (c : collection) :
  student_collection_ok c = true ->
  (query_age age = None ->
   app_get_students country age c
   = (RequestValidationError [(["query"; "age"], int_parsing)], c))
  /\ (forall n,
         query_age age = Some n ->
         (age_fits n = true ->
          app_get_students country age c
          = (JSONResponse 200
               (JDict [("data",
                        JList (map list_item
                                 (firstn 1000 (filter (selected country n) c))))]),
             c)
          /\ (List.length
                (map list_item (firstn 1000 (filter (selected country n) c)))
              <= 1000)%nat
          /\ Forall is_list_item
               (map list_item (firstn 1000 (filter (selected country n) c))))
         /\ (age_fits n = false ->
             app_get_students country age c = (ServerError OverflowError, c))).
Proof.
  intros S.
  assert (R : forall n,
             query_age age = Some n ->
             app_get_students country age c
             = respond 200 (fun r => Some (StudentCollection.to_json r))
                 (list_students country n c)).
  { intros n Q. unfold app_get_students. destruct age as [a|]; cbn in Q.
    - destruct (str_as_int a) as [m|]; [|discriminate Q].
      inversion Q. reflexivity.
    - inversion Q. reflexivity. }
  split.
  - intros Q. unfold app_get_students. destruct age as [a|]; cbn in Q.
    + destruct (str_as_int a); [discriminate Q | reflexivity].
    + discriminate Q.
  - intros n Q. split.
    + intros A. rewrite (R n Q), (list_students_run country n c S A).
      split; [|split].
      * unfold respond, StudentCollection.to_json. cbn [fst snd StudentCollection.data].
        rewrite map_map. reflexivity.
      * rewrite length_map. apply firstn_le_length.
      * apply Forall_map, Forall_forall. intros d _. eexists _, _. reflexivity.
    + intros A. rewrite (R n Q), (list_students_overflow country n c A).
      reflexivity.
Qed.

Lemma C8_list_response_witness :
  app_get_students (rt := example_runtime) None (Some "21") [jane_doc; rahul_doc]
  = (JSONResponse 200
       (JDict [("data", JList [JDict [("name", JStr "Jane Doe"); ("age", JInt 22)]])]),
     [jane_doc; rahul_doc]).
Proof.
  exact (proj1 (proj1 (proj2 (C8_list_response example_runtime None (Some "21")
                                [jane_doc; rahul_doc] eq_refl)
                         (Some 21) eq_refl) eq_refl)).
Defined.

(** ** Validation of request bodies (C2, C10) *)

Lemma is_valid_map {A B} (f : A -> B) (r : validated A) :
  is_valid (validated_map f r) = is_valid r.
Proof. destruct r; reflexivity. Qed.

Lemma is_valid_pair {A B} (a : validated A) (b : validated B) :
  is_valid (validated_pair a b) = is_valid a && is_valid b.
Proof. destruct a, b; reflexivity. Qed.

Lemma is_valid_at_loc {A} (key : string) (r : validated A) :
  is_valid (at_loc key r) = is_valid r.
Proof. destruct r; reflexivity. Qed.

Lemma is_valid_required {A} (key : string) (v : json -> validated A)
    (d : Dict.t json) :
  is_valid (required key v d) = has_field key (fun x => is_valid (v x)) d.
Proof.
  unfold required, has_field. destruct (Dict.get key d); [|reflexivity].
  apply is_valid_at_loc.
Qed.

Lemma is_valid_optional {A} (v : json -> validated A) (x : json) :
  is_valid (validate_optional v x) = null_or (fun x => is_valid (v x)) x.
Proof. destruct x; cbn; rewrite ?is_valid_map; reflexivity. Qed.

Lemma has_field_ext (key : string) (p q : json -> bool) (d : Dict.t json) :
  (forall x, p x = q x) -> has_field key p d = has_field key q d.
Proof. intros E. unfold has_field. destruct (Dict.get key d); auto. Qed.

Lemma null_or_ext (p q : json -> bool) (x : json) :
  (forall x, p x = q x) -> null_or p x = null_or q x.
Proof. intros E. destruct x; cbn; auto. Qed.

Lemma is_valid_str (x : json) : is_valid (validate_str x) = is_str x.
Proof. destruct x; reflexivity. Qed.

Lemma is_valid_int {rt : Runtime} (x : json) :
  is_valid (validate_int x) = is_lax_int x.
Proof.
  destruct x as [ | | |f|s| | ]; try reflexivity.
  - destruct f; cbn; try reflexivity; destruct (float_as_int _); reflexivity.
  - cbn. destruct (str_as_int s); reflexivity.
Qed.

Lemma is_valid_address (x : json) :
  is_valid (AddressModel.validate x) = is_address x.
Proof.
  destruct x as [ | | | | | |d]; try reflexivity.
  unfold AddressModel.validate, is_address.
  rewrite is_valid_map, is_valid_pair, !is_valid_required. unfold has_field.
  destruct (Dict.get "city" d) as [ci|], (Dict.get "country" d) as [co|];
    rewrite ?is_valid_str, ?andb_false_r; reflexivity.
Qed.

Lemma is_valid_id {rt : Runtime} (d : Dict.t json) :
  is_valid (with_default "_id" "id" None (validate_optional PyObjectId) d) = true.
Proof.
  unfold with_default.
  destruct (Dict.get "_id" d) as [x|]; [|destruct (Dict.get "id" d) as [x|]];
    try reflexivity;
    rewrite is_valid_at_loc, is_valid_optional; destruct x; reflexivity.
Qed.

Lemma StudentModel_validate_shape {rt : Runtime} (body : json) :
  is_valid (StudentModel.validate body) = creation_shape body.
Proof.
  destruct body as [ | | | | | |d]; try reflexivity.
  unfold StudentModel.validate, creation_shape.
  rewrite is_valid_map, !is_valid_pair, is_valid_id, !is_valid_required.
  rewrite (has_field_ext "name" _ _ d is_valid_str),
    (has_field_ext "age" _ _ d is_valid_int),
    (has_field_ext "address" _ _ d is_valid_address).
  cbn [andb]. rewrite andb_assoc. reflexivity.
Qed.

Lemma UpdateStudentModel_validate_shape {rt : Runtime} (body : json) :
  is_valid (UpdateStudentModel.validate body) = update_shape body.
Proof.
  destruct body as [ | | | | | |d]; try reflexivity.
  unfold UpdateStudentModel.validate, update_shape.
  rewrite is_valid_map, !is_valid_pair, !is_valid_required.
  rewrite (has_field_ext "name" _ (null_or is_str) d),
    (has_field_ext "age" _ (null_or is_lax_int) d),
    (has_field_ext "address" _ (null_or is_address) d).
  - rewrite andb_assoc. reflexivity.
  - intros x. rewrite is_valid_optional. apply null_or_ext, is_valid_address.
  - intros x. rewrite is_valid_optional. apply null_or_ext, is_valid_int.
  - intros x. rewrite is_valid_optional. apply null_or_ext, is_valid_str.
Qed.

(** C2: the code does not make the fields of an update body optional.  A
    body with [age] alone fails validation with [name] and [address]
    reported missing, and so does the empty body with all three; the
    update route answers 422 and the handler is not run. *)
Theorem C2_update_body_fields_are_required (rt : Runtime) (id : string)
    (c : collection) :
  UpdateStudentModel.validate (JDict [("age", JInt 23)])
  = Invalid [(["name"], missing); (["address"], missing)]
  /\ UpdateStudentModel.validate (JDict [])
     = Invalid [(["name"], missing); (["age"], missing); (["address"], missing)]
  /\ app_patch_student id (JDict [("age", JInt 23)]) c
     = (RequestValidationError [(["name"], missing); (["address"], missing)], c)
  /\ status_code (fst (app_patch_student id (JDict [("age", JInt 23)]) c)) = 422.
Proof. repeat split. Qed.

(** C10, as the specification states it, fails: a creation payload whose
    [name] is the empty string passes validation and is inserted, and so
    does one whose [age] is a [bool]. *)
Lemma C10_empty_name_is_accepted :
  let address := JDict [("city", JStr "Agra"); ("country", JStr "India")] in
  let nameless := JDict [("name", JStr ""); ("age", JInt 22); ("address", address)] in
  let ageless := JDict [("name", JStr "Jane Doe"); ("age", JBool true); ("address", address)] in
  creation_shape_as_stated nameless = false
  /\ is_valid (StudentModel.validate (rt := example_runtime) nameless) = true
  /\ app_post_students (rt := example_runtime) jane_oid nameless []
     = (JSONResponse 201 (JDict [("id", JStr jane_id)]),
        [[("_id", VObjectId jane_oid); ("name", VStr ""); ("age", VInt 22);
          ("address", VDict [("city", VStr "Agra"); ("country", VStr "India")])]])
  /\ creation_shape_as_stated ageless = false
  /\ is_valid (StudentModel.validate (rt := example_runtime) ageless) = true.
Proof. cbv zeta. repeat split. Qed.

(** C10, amended: a creation payload passes validation exactly when it is
    an object whose [name] is a string (the empty string included), whose
    [age] is an integer or a value that lax mode converts to one, and whose
    [address] is an object with strings [city] and [country]; a payload
    that fails is answered 422 and the collection is not touched. *)
Theorem C10_creation_validation (rt : Runtime) (body : json) :
  is_valid (StudentModel.validate body) = creation_shape body
  /\ (forall new_oid c errors,
         StudentModel.validate body = Invalid errors ->
         app_post_students new_oid body c = (RequestValidationError errors, c))
  /\ (forall new_oid c,
         creation_shape body = false ->
         status_code (fst (app_post_students new_oid body c)) = 422
         /\ snd (app_post_students new_oid body c) = c).
Proof.
  split; [apply StudentModel_validate_shape|].
  split.
  - intros new_oid c errors E. unfold app_post_students. rewrite E. reflexivity.
  - intros new_oid c F. rewrite <- StudentModel_validate_shape in F.
    unfold app_post_students.
    destruct (StudentModel.validate body); [discriminate F|]. split; reflexivity.
Qed.

(** ** The collection stays a collection of student documents *)

Lemma forallb_app_one {A} (f : A -> bool) (l : list A) (a : A) :
  forallb f l = true -> f a = true -> forallb f (l ++ [a]) = true.
Proof. intros L Fa. rewrite forallb_app, L. cbn. rewrite Fa. reflexivity. Qed.

Lemma unique_ids_app_one (c : collection) (d : document) (v : value) :
  unique_ids c = true -> Dict.get "_id" d = Some v ->
  existsb (has_id v) c = false ->
  unique_ids (c ++ [d]) = true.
Proof.
  intros U G N. induction c as [|b c IH]; cbn [app unique_ids].
  - rewrite G. reflexivity.
  - cbn [unique_ids] in U. cbn [existsb] in N.
    apply orb_false_iff in N. destruct N as [Nb Nc].
    destruct (Dict.get "_id" b) as [w|] eqn:Gb; [|discriminate].
    apply andb_true_iff in U. destruct U as [U1 U2].
    rewrite (IH U2 Nc), andb_true_r, existsb_app. cbn [existsb].
    apply negb_true_iff in U1. rewrite U1. cbn [orb]. rewrite orb_false_r.
    apply negb_true_iff. unfold has_id in *. rewrite G. rewrite Gb in Nb.
    destruct (value_eqb v w) eqn:X; [|reflexivity].
    apply value_eqb_eq in X. subst w. rewrite value_eqb_refl in Nb. discriminate.
Qed.

Lemma create_student_duplicate {rt : Runtime} (new_oid : ObjectId.t)
    (student : StudentModel.t) (c : collection) :
  existsb (has_id (VObjectId new_oid)) c = true ->
  fits_int64 (StudentModel.age student) = true ->
  create_student new_oid student c = (Raise DuplicateKeyError, c).
Proof.
  intros X A. unfold create_student. unfold bind at 1.
  rewrite insert_one_student, A, X. reflexivity.
Qed.

Lemma post_students_collection {rt : Runtime} (new_oid : ObjectId.t)
    (body : json) (c : collection) :
  snd (app_post_students new_oid body c) = c
  \/ exists student,
       existsb (has_id (VObjectId new_oid)) c = false
       /\ fits_int64 (StudentModel.age student) = true
       /\ snd (app_post_students new_oid body c) = c ++ [student_doc new_oid student].
Proof.
  unfold app_post_students.
  destruct (StudentModel.validate body) as [student|]; [|left; reflexivity].
  destruct (fits_int64 (StudentModel.age student)) eqn:A.
  - destruct (existsb (has_id (VObjectId new_oid)) c) eqn:X.
    + left. rewrite (create_student_duplicate new_oid student c X A). reflexivity.
    + right. exists student. split; [reflexivity|]. split; [exact A|].
      rewrite (create_student_run new_oid student c X A). reflexivity.
  - left. rewrite (create_student_overflow new_oid student c A). reflexivity.
Qed.

Lemma delete_first_sublist (q : filter_doc) (f : document -> bool) (c : collection) :
  existsb f (snd (delete_first q c)) = true -> existsb f c = true.
Proof.
  induction c as [|d c IH]; cbn [delete_first existsb snd]; [auto|].
  destruct (matches q d); cbn [snd existsb].
  - intros ->. apply orb_true_r.
  - destruct (f d); cbn [orb]; auto.
Qed.

Lemma delete_first_student_docs (q : filter_doc) (c : collection) :
  student_collection_ok c = true ->
  student_collection_ok (snd (delete_first q c)) = true.
Proof.
  unfold student_collection_ok.
  induction c as [|d c IH]; cbn [delete_first forallb snd]; [auto|].
  intros S. apply andb_true_iff in S. destruct S as [Sd Sc].
  destruct (matches q d); cbn [snd forallb]; [exact Sc|].
  rewrite Sd, (IH Sc). reflexivity.
Qed.

Lemma delete_first_unique_ids (q : filter_doc) (c : collection) :
  unique_ids c = true -> unique_ids (snd (delete_first q c)) = true.
Proof.
  induction c as [|d c IH]; cbn [delete_first unique_ids snd]; [auto|].
  destruct (Dict.get "_id" d) as [v|] eqn:G; [|discriminate].
  intros U. apply andb_true_iff in U. destruct U as [U1 U2].
  destruct (matches q d); cbn [snd unique_ids]; [exact U2|].
  rewrite G, (IH U2), andb_true_r.
  apply negb_true_iff in U1. apply negb_true_iff.
  destruct (existsb (has_id v) (snd (delete_first q c))) eqn:X; [|reflexivity].
  rewrite (delete_first_sublist q _ c X) in U1. discriminate.
Qed.

Lemma delete_student_collection (id : string) (c : collection) :
  snd (app_delete_student id c) = c
  \/ exists oid, snd (app_delete_student id c) = snd (delete_first (by_id oid) c).
Proof.
  destruct (ObjectId.of_str id) as [oid|] eqn:E.
  - right. exists oid. rewrite (delete_student_run id oid c E). reflexivity.
  - left. unfold app_delete_student, delete_student, bind.
    rewrite (ObjectId_invalid id c E). reflexivity.
Qed.

Lemma apply_set_student_doc {rt : Runtime} (body : json)
    (student : UpdateStudentModel.t) (d : document) :
  UpdateStudentModel.validate body = Valid student ->
  is_student_doc d = true ->
  is_student_doc (apply_set (update_set student) d) = true
  /\ Dict.get "_id" (apply_set (update_set student) d) = Dict.get "_id" d.
Proof.
  intros V S.
  destruct (UpdateStudentModel_validate_fields_set body student V) as [FS FA].
  destruct (update_set_spec student) as (S1 & S2 & S3 & S4 & _ & ND).
  cbv zeta in S1, S2, S3. rewrite FS in S1, S2, S3. cbn [str_in existsb String.eqb Ascii.eqb Bool.eqb orb] in S1, S2, S3.
  destruct (student_doc_fields d S) as (oid & n & a & addr & ci & co & I & N & A & D & C & K).
  assert (G : Dict.get "_id" (apply_set (update_set student) d) = Dict.get "_id" d).
  { rewrite (get_apply_set _ _ _ ND), S4 by discriminate. reflexivity. }
  split; [|exact G].
  unfold is_student_doc. rewrite G, I, !(get_apply_set _ _ _ ND), S1, S2, S3, N, A, D.
  destruct (UpdateStudentModel.name student), (UpdateStudentModel.age student);
    cbn [option_map];
    (destruct (UpdateStudentModel.address student) as [ad|] eqn:Ad;
     cbn [option_map];
     [ unfold address_value; rewrite (FA ad eq_refl);
       reflexivity
     | rewrite C, K; reflexivity ]).
Qed.

Lemma update_first_student_docs (q : filter_doc) (u : Dict.t value) (c : collection) :
  (forall d, is_student_doc d = true -> is_student_doc (apply_set u d) = true) ->
  student_collection_ok c = true ->
  student_collection_ok (snd (update_first q u c)) = true.
Proof.
  intros P. unfold student_collection_ok.
  induction c as [|d c IH]; cbn [update_first forallb snd]; [auto|].
  intros S. apply andb_true_iff in S. destruct S as [Sd Sc].
  destruct (matches q d); cbn [snd forallb].
  - rewrite (P d Sd), Sc. reflexivity.
  - rewrite Sd, (IH Sc). reflexivity.
Qed.

Lemma update_first_ids (q : filter_doc) (u : Dict.t value) (c : collection) :
  (forall d, Dict.get "_id" (apply_set u d) = Dict.get "_id" d) ->
  map (Dict.get "_id") (snd (update_first q u c)) = map (Dict.get "_id") c.
Proof.
  intros P. induction c as [|d c IH]; cbn [update_first map snd]; [reflexivity|].
  destruct (matches q d); cbn [snd map]; [rewrite P | rewrite IH]; reflexivity.
Qed.

Lemma existsb_has_id_ids (v : value) (c c' : collection) :
  map (Dict.get "_id") c = map (Dict.get "_id") c' ->
  existsb (has_id v) c = existsb (has_id v) c'.
Proof.
  revert c'. induction c as [|d c IH]; intros [|d' c'] E; cbn [map] in E;
    try discriminate; [reflexivity|].
  inversion E as [[Ed Ec]]. cbn [existsb]. unfold has_id at 1 3.
  rewrite Ed, (IH c' Ec). reflexivity.
Qed.

Lemma unique_ids_ids (c c' : collection) :
  map (Dict.get "_id") c = map (Dict.get "_id") c' ->
  unique_ids c = unique_ids c'.
Proof.
  revert c'. induction c as [|d c IH]; intros [|d' c'] E; cbn [map] in E;
    try discriminate; [reflexivity|].
  inversion E as [[Ed Ec]]. cbn [unique_ids]. rewrite Ed.
  destruct (Dict.get "_id" d') as [v|]; [|reflexivity].
  rewrite (existsb_has_id_ids v c c' Ec), (IH c' Ec). reflexivity.
Qed.

Lemma patch_student_collection {rt : Runtime} (id : string) (body : json)
    (c : collection) :
  snd (app_patch_student id body c) = c
  \/ exists oid student,
       UpdateStudentModel.validate body = Valid student
       /\ encodable (VDict (update_set student)) = true
       /\ snd (app_patch_student id body c)
          = snd (update_first (by_id oid) (update_set student) c).
Proof.
  unfold app_patch_student.
  destruct (UpdateStudentModel.validate body) as [student|] eqn:V;
    [|left; reflexivity].
  destruct (ObjectId.of_str id) as [oid|] eqn:E.
  - unfold respond. cbn [snd]. rewrite (update_student_run id oid student c E).
    destruct (0 <? List.length (update_set student))%nat; [|left; reflexivity].
    destruct (encodable (VDict (update_set student))) eqn:En; [|left; reflexivity].
    cbv zeta.
    destruct (modified_count (fst (update_first (by_id oid) (update_set student) c)) =? 1);
      right; exists oid, student; (split; [reflexivity|]);
      (split; [exact En | reflexivity]).
  - left. unfold respond, update_student, bind. cbn [snd].
    destruct (0 <? List.length _)%nat; rewrite (ObjectId_invalid id c E);
      reflexivity.
Qed.

(** X11: every route leaves a collection of student documents with unique
    identifiers in that state, whatever the request; the two read routes
    leave the collection as it was. *)
Theorem routes_preserve_student_collection (rt : Runtime) (c : collection) :
  student_collection_ok c = true ->
  unique_ids c = true ->
  (forall new_oid body,
      student_collection_ok (snd (app_post_students new_oid body c)) = true
      /\ unique_ids (snd (app_post_students new_oid body c)) = true)
  /\ (forall id body,
        student_collection_ok (snd (app_patch_student id body c)) = true
        /\ unique_ids (snd (app_patch_student id body c)) = true)
  /\ (forall id,
        student_collection_ok (snd (app_delete_student id c)) = true
        /\ unique_ids (snd (app_delete_student id c)) = true)
  /\ (forall id, snd (app_get_student id c) = c)
  /\ (forall country age, snd (app_get_students country age c) = c).
Proof.
  intros S U. split; [|split; [|split; [|split]]].
  - intros new_oid body.
    destruct (post_students_collection new_oid body c)
      as [->|(student & N & _ & ->)]; [auto|]. split.
    + apply forallb_app_one; [exact S | reflexivity].
    + apply (unique_ids_app_one c _ (VObjectId new_oid)); auto.
  - intros id body.
    destruct (patch_student_collection id body c)
      as [->|(oid & student & V & _ & ->)]; [auto|]. split.
    + apply update_first_student_docs; [|exact S].
      intros d Sd. exact (proj1 (apply_set_student_doc body student d V Sd)).
    + rewrite (unique_ids_ids _ c); [exact U|].
      apply update_first_ids. intros d.
      destruct (update_set_spec student) as (_ & _ & _ & S4 & _ & ND).
      rewrite (get_apply_set _ _ _ ND), S4 by discriminate. reflexivity.
  - intros id.
    destruct (delete_student_collection id c) as [->|(oid & ->)]; [auto|].
    split; [apply delete_first_student_docs | apply delete_first_unique_ids]; assumption.
  - intros id. unfold app_get_student, respond, fetch_student, bind, ObjectId_.
    cbn [snd]. destruct (ObjectId.of_str id); cbn; [|reflexivity].
    destruct (find _ c); reflexivity.
  - intros country age. unfold app_get_students.
    assert (L : forall n, snd (list_students country n c) = c).
    { intros n. rewrite list_students_unfold.
      destruct (age_fits n); [|reflexivity].
      destruct (StudentCollection.new _); reflexivity. }
    destruct age as [a|]; [destruct (str_as_int a)|]; cbn [snd respond]; auto.
Qed.

(* ===================================================================== *)
(** * Further properties of the handlers *)
(* ===================================================================== *)

(** ** Shared lemmas *)

Lemma find_split {A} (f : A -> bool) (l : list A) (a : A) :
  find f l = Some a ->
  exists l1 l2, l = l1 ++ a :: l2 /\ existsb f l1 = false /\ f a = true.
Proof.
  induction l as [|b l IH]; cbn [find]; [discriminate|].
  destruct (f b) eqn:F.
  - intros E. inversion E. subst b. exists [], l. auto.
  - intros E. destruct (IH E) as (l1 & l2 & -> & N & Fa).
    exists (b :: l1), l2. cbn [existsb app]. rewrite F. auto.
Qed.

Lemma set_unchanged {V} (k : string) (v : V) (d : Dict.t V) :
  Dict.get k d = Some v -> Dict.set k v d = d.
Proof.
  induction d as [|[k' v'] d IH]; cbn [Dict.get Dict.set]; [discriminate|].
  destruct (String.eqb k k').
  - intros E. inversion E. reflexivity.
  - intros E. rewrite (IH E). reflexivity.
Qed.

Lemma apply_set_unchanged (u : Dict.t value) (d : document) :
  (forall k v, In (k, v) u -> Dict.get k d = Some v) -> apply_set u d = d.
Proof.
  unfold apply_set. induction u as [|[k v] u IH]; intros P; cbn [fold_left fst snd].
  - reflexivity.
  - rewrite (set_unchanged k v d (P k v (or_introl eq_refl))).
    apply IH. intros k' v' I. apply P. right. exact I.
Qed.

Lemma get_in_distinct {V} (k : string) (v : V) (d : Dict.t V) :
  NoDup (Dict.keys d) -> In (k, v) d -> Dict.get k d = Some v.
Proof.
  induction d as [|[k' v'] d IH]; cbn [Dict.keys map fst In Dict.get]; [contradiction|].
  intros ND [E|I].
  - inversion E. subst. rewrite String.eqb_refl. reflexivity.
  - inversion ND as [|? ? NI ND']; subst.
    destruct (String.eqb_spec k k') as [->|_]; [|exact (IH ND' I)].
    contradiction NI. change (In (fst (k', v)) (map fst d)). apply in_map. exact I.
Qed.

(** Writing the same update set a second time changes nothing. *)
Lemma apply_set_twice (u : Dict.t value) (d : document) :
  NoDup (Dict.keys u) -> apply_set u (apply_set u d) = apply_set u d.
Proof.
  intros ND. apply apply_set_unchanged. intros k v I.
  rewrite (get_apply_set u d k ND), (get_in_distinct k v u ND I). reflexivity.
Qed.

Lemma update_set_keeps_id (student : UpdateStudentModel.t) (d : document) :
  Dict.get "_id" (apply_set (update_set student) d) = Dict.get "_id" d.
Proof.
  destruct (update_set_spec student) as (_ & _ & _ & S4 & _ & ND).
  rewrite (get_apply_set _ _ _ ND), S4 by discriminate. reflexivity.
Qed.

Lemma has_id_apply_set (v : value) (student : UpdateStudentModel.t) (d : document) :
  has_id v (apply_set (update_set student) d) = has_id v d.
Proof. unfold has_id. rewrite update_set_keeps_id. reflexivity. Qed.

(** With a valid id and a document that has it, [update_student] succeeds
    and the first such document carries the update set. *)
Lemma update_student_found (id : string) (oid : ObjectId.t)
    (student : UpdateStudentModel.t) (c1 c2 : collection) (d : document) :
  ObjectId.of_str id = Some oid ->
  encodable (VDict (update_set student)) = true ->
  existsb (has_id (VObjectId oid)) c1 = false ->
  has_id (VObjectId oid) d = true ->
  update_student id student (c1 ++ d :: c2)
  = (Ok [], c1 ++ apply_set (update_set student) d :: c2).
Proof.
  intros E En N F. rewrite (update_student_run id oid student _ E), En.
  assert (X : forall d', has_id (VObjectId oid) d' = true ->
                probe_outcome id oid (c1 ++ d' :: c2) = Ok []).
  { intros d' F'. unfold probe_outcome. rewrite existsb_app. cbn [existsb].
    rewrite F', orb_true_r. reflexivity. }
  destruct (update_set student) as [|kv u] eqn:U.
  - cbn. rewrite (X d F). reflexivity.
  - cbn [List.length Nat.ltb Nat.leb]. cbv zeta.
    rewrite (update_first_some (by_id oid) (kv :: u) c1 c2 d).
    + cbn [fst snd modified_count].
      destruct (document_eqb d (apply_set (kv :: u) d)); cbn [Z.eqb]; [|reflexivity].
      rewrite X; [reflexivity|]. rewrite <- U, has_id_apply_set. exact F.
    + rewrite existsb_matches_by_id. exact N.
    + rewrite matches_by_id. exact F.
Qed.

(** With a valid id that no document has, [update_student] raises 404 and
    writes nothing. *)
Lemma update_student_absent (id : string) (oid : ObjectId.t)
    (student : UpdateStudentModel.t) (c : collection) :
  ObjectId.of_str id = Some oid ->
  encodable (VDict (update_set student)) = true ->
  existsb (has_id (VObjectId oid)) c = false ->
  update_student id student c
  = (Raise (HTTPException 404 ("Student " ++ id ++ " not found")%string), c).
Proof.
  intros E En N. rewrite (update_student_run id oid student c E), En.
  rewrite (update_first_none (by_id oid) (update_set student) c)
    by (rewrite existsb_matches_by_id; exact N).
  cbn [fst snd modified_count Z.eqb]. unfold probe_outcome. rewrite N.
  destruct (0 <? List.length (update_set student))%nat; reflexivity.
Qed.

(** With a valid id and an update set the driver cannot encode,
    [update_student] raises [OverflowError] and writes nothing. *)
Lemma update_student_refused (id : string) (oid : ObjectId.t)
    (student : UpdateStudentModel.t) (c : collection) :
  ObjectId.of_str id = Some oid ->
  encodable (VDict (update_set student)) = false ->
  update_student id student c = (Raise OverflowError, c).
Proof.
  intros E En. rewrite (update_student_run id oid student c E), En.
  destruct (update_set student); [discriminate En | reflexivity].
Qed.

Lemma update_student_invalid (id : string) (student : UpdateStudentModel.t)
    (c : collection) :
  ObjectId.of_str id = None ->
  update_student id student c = (Raise (InvalidId id), c).
Proof.
  intros E. unfold update_student, bind.
  destruct (0 <? List.length _)%nat; rewrite (ObjectId_invalid id c E); reflexivity.
Qed.

(** ** Update: idempotence, and what it never touches *)

(** X1: an update is idempotent.  Running [update_student] again with the
    same id and body on the collection it left gives the same outcome and
    leaves that collection as it is; the same holds for the PATCH route,
    whatever the id and the body. *)
Theorem X1_update_is_idempotent (rt : Runtime) (id : string)
    (student : UpdateStudentModel.t) (body : json) (c : collection) :
  update_student id student (snd (update_student id student c))
  = update_student id student c
  /\ app_patch_student id body (snd (app_patch_student id body c))
     = app_patch_student id body c.
Proof.
  assert (H : forall student,
             update_student id student (snd (update_student id student c))
             = update_student id student c).
  { clear student. intros student.
    destruct (ObjectId.of_str id) as [oid|] eqn:E.
    - destruct (encodable (VDict (update_set student))) eqn:En.
      + destruct (existsb (has_id (VObjectId oid)) c) eqn:X.
        * destruct (first_match_split _ _ X) as (c1 & d & c2 & -> & N & F).
          rewrite (update_student_found id oid student c1 c2 d E En N F). cbn [snd].
          rewrite (update_student_found id oid student c1 c2 _ E En N)
            by (rewrite has_id_apply_set; exact F).
          rewrite apply_set_twice; [reflexivity|].
          apply (update_set_spec student).
        * rewrite (update_student_absent id oid student c E En X). cbn [snd].
          apply (update_student_absent id oid student c E En X).
      + rewrite (update_student_refused id oid student c E En). cbn [snd].
        apply (update_student_refused id oid student c E En).
    - rewrite (update_student_invalid id student c E). cbn [snd].
      apply (update_student_invalid id student c E). }
  split; [apply H|].
  unfold app_patch_student.
  destruct (UpdateStudentModel.validate body) as [s|]; [|reflexivity].
  change (snd (respond 204 (fun d => jsonable_encoder (VDict d))
                 (update_student id s c)))
    with (snd (update_student id s c)).
  rewrite (H s). reflexivity.
Qed.

(** X2: an update never adds or removes a document and never changes an
    identifier: the identifiers of the collection, in order, are the same
    after [update_student] as before, for every id and every body. *)
Theorem X2_update_keeps_identifiers (id : string)
    (student : UpdateStudentModel.t) (c : collection) :
  ids (snd (update_student id student c)) = ids c
  /\ List.length (snd (update_student id student c)) = List.length c.
Proof.
  assert (I : ids (snd (update_student id student c)) = ids c).
  { destruct (ObjectId.of_str id) as [oid|] eqn:E.
    - rewrite (update_student_run id oid student c E). unfold ids.
      destruct (0 <? List.length (update_set student))%nat; [|reflexivity].
      destruct (encodable (VDict (update_set student))); [|reflexivity].
      cbv zeta.
      destruct (modified_count (fst (update_first (by_id oid) (update_set student) c)) =? 1);
        cbn [snd]; apply update_first_ids; intros d; apply update_set_keeps_id.
    - rewrite (update_student_invalid id student c E). reflexivity. }
  split; [exact I|].
  apply (f_equal (@List.length _)) in I. unfold ids in I.
  rewrite !length_map in I. exact I.
Qed.

(** ** Update, then fetch *)

Lemma detail_view_after_update {rt : Runtime} (body : json)
    (student : UpdateStudentModel.t) (d : document) :
  UpdateStudentModel.validate body = Valid student ->
  is_student_doc d = true ->
  detail_view (apply_set (update_set student) d) = updated_view student d.
Proof.
  intros V S.
  destruct (UpdateStudentModel_validate_fields_set body student V) as [FS FA].
  destruct (update_set_spec student) as (S1 & S2 & S3 & _ & _ & ND).
  cbv zeta in S1, S2, S3. rewrite FS in S1, S2, S3.
  cbn [str_in existsb String.eqb Ascii.eqb Bool.eqb orb] in S1, S2, S3.
  unfold detail_view, updated_view, doc_name, doc_age, doc_city, doc_country,
    doc_address_field.
  rewrite !(get_apply_set _ _ _ ND), S1, S2, S3.
  destruct (UpdateStudentModel.name student), (UpdateStudentModel.age student);
    cbn [option_map];
    (destruct (UpdateStudentModel.address student) as [ad|] eqn:Ad;
     cbn [option_map];
     [ unfold address_value; rewrite (FA ad eq_refl);
       reflexivity
     | reflexivity ]).
Qed.

(** The update set of a validated body is encoded unless its age is
    outside 8 bytes. *)
Lemma encodable_update_set {rt : Runtime} (body : json)
    (student : UpdateStudentModel.t) :
  UpdateStudentModel.validate body = Valid student ->
  encodable (VDict (update_set student))
  = age_fits (UpdateStudentModel.age student).
Proof.
  intros V.
  destruct (UpdateStudentModel_validate_fields_set body student V) as [FS FA].
  destruct student as [n a ad fs]. cbn in FS, FA. subst fs.
  unfold update_set, UpdateStudentModel.model_dump, dump_fields.
  cbn [UpdateStudentModel.model_fields_set UpdateStudentModel.name
       UpdateStudentModel.age UpdateStudentModel.address negb orb str_in
       existsb String.eqb Ascii.eqb Bool.eqb filter map fst snd].
  destruct n as [n|], a as [a|], ad as [ad|];
    cbn [filter map fst snd value_of_option is_not_None age_fits];
    try (unfold AddressModel.model_dump, dump_fields; rewrite (FA ad eq_refl));
    cbn; rewrite ?andb_true_r; reflexivity.
Qed.

Lemma patch_refused {rt : Runtime} (id : string) (oid : ObjectId.t)
    (body : json) (student : UpdateStudentModel.t) (c : collection) :
  UpdateStudentModel.validate body = Valid student ->
  ObjectId.of_str id = Some oid ->
  age_fits (UpdateStudentModel.age student) = false ->
  app_patch_student id body c = (ServerError OverflowError, c).
Proof.
  intros V E A. unfold app_patch_student. rewrite V.
  rewrite (update_student_refused id oid student c E)
    by (rewrite (encodable_update_set body student V); exact A).
  reflexivity.
Qed.

Lemma patch_then_fetch {rt : Runtime} (id : string) (oid : ObjectId.t)
    (body : json) (student : UpdateStudentModel.t) (c : collection)
    (d : document) :
  UpdateStudentModel.validate body = Valid student ->
  ObjectId.of_str id = Some oid ->
  find (has_id (VObjectId oid)) c = Some d ->
  is_student_doc d = true ->
  age_fits (UpdateStudentModel.age student) = true ->
  fst (app_patch_student id body c) = JSONResponse 204 (JDict [])
  /\ app_get_student id (snd (app_patch_student id body c))
     = (JSONResponse 200 (updated_view student d),
        snd (app_patch_student id body c)).
Proof.
  intros V E F S A.
  assert (En : encodable (VDict (update_set student)) = true)
    by (rewrite (encodable_update_set body student V); exact A).
  destruct (find_split _ _ _ F) as (c1 & c2 & -> & N & Fd).
  unfold app_patch_student. rewrite V.
  rewrite (update_student_found id oid student c1 c2 d E En N Fd).
  unfold respond at 1 2 3. cbn [fst snd jsonable_encoder option_map].
  split; [reflexivity|].
  rewrite <- (detail_view_after_update body student d V S).
  apply (app_get_student_found id oid).
  - exact E.
  - apply find_first; [exact N|]. rewrite has_id_apply_set. exact Fd.
  - exact (proj1 (apply_set_student_doc body student d V S)).
Qed.

(** X3: after a PATCH that passes validation, on an id whose document is a
    student document, with an age that fits 8 bytes (or none), the route
    answers 204 and a fetch of the same id answers 200 with the stored
    name, age and address, each replaced by the body's value when the body
    gives one and kept when the body gives [null].  With an age outside 8
    bytes the driver raises [OverflowError]: the route answers 500 and
    nothing is written. *)
Theorem X3_update_then_fetch (rt : Runtime) (id : string) (oid : ObjectId.t)
    (body : json) (student : UpdateStudentModel.t) (c : collection)
    (d : document) :
  UpdateStudentModel.validate body = Valid student ->
  ObjectId.of_str id = Some oid ->
  find (has_id (VObjectId oid)) c = Some d ->
  is_student_doc d = true ->
  (age_fits (UpdateStudentModel.age student) = true ->
   fst (app_patch_student id body c) = JSONResponse 204 (JDict [])
   /\ app_get_student id (snd (app_patch_student id body c))
      = (JSONResponse 200 (updated_view student d),
         snd (app_patch_student id body c)))
  /\ (age_fits (UpdateStudentModel.age student) = false ->
      app_patch_student id body c = (ServerError OverflowError, c)).
Proof.
  intros V E F S. split; [|exact (patch_refused id oid body student c V E)].
  intros A.
  assert (En : encodable (VDict (update_set student)) = true)
    by (rewrite (encodable_update_set body student V); exact A).
  destruct (find_split _ _ _ F) as (c1 & c2 & -> & N & Fd).
  assert (P : app_patch_student id body (c1 ++ d :: c2)
              = (JSONResponse 204 (JDict []),
                 c1 ++ apply_set (update_set student) d :: c2)).
  { unfold app_patch_student.
    rewrite V, (update_student_found id oid student c1 c2 d E En N Fd).
    reflexivity. }
  rewrite P. cbn [fst snd]. split; [reflexivity|].
  rewrite <- (detail_view_after_update body student d V S).
  apply (app_get_student_found id oid); [exact E| |].
  - apply find_first; [exact N|]. rewrite has_id_apply_set. exact Fd.
  - exact (proj1 (apply_set_student_doc body student d V S)).
Qed.

Lemma X3_update_then_fetch_witness :
  app_get_student (rt := example_runtime) jane_id
    (snd (app_patch_student (rt := example_runtime) jane_id
            (JDict [("name", JNull); ("age", JInt 23); ("address", JNull)])
            [jane_doc]))
  = (JSONResponse 200
       (JDict [("name", JStr "Jane Doe"); ("age", JInt 23);
               ("address", JDict [("city", JStr "Agra"); ("country", JStr "India")])]),
     snd (app_patch_student (rt := example_runtime) jane_id
            (JDict [("name", JNull); ("age", JInt 23); ("address", JNull)])
            [jane_doc])).
Proof.
  exact (proj2 (proj1 (X3_update_then_fetch example_runtime jane_id jane_oid
                         (JDict [("name", JNull); ("age", JInt 23); ("address", JNull)])
                         (UpdateStudentModel.mk None (Some 23) None ["name"; "age"; "address"])
                         [jane_doc] jane_doc eq_refl eq_refl eq_refl eq_refl)
                  eq_refl)).
Defined.

(** X4: the body a fetch returns is accepted by the PATCH route for the
    same student: for a stored age (one that fits 8 bytes) the route
    answers 204, and a fetch afterwards returns the same body again.  (A
    document whose age is outside 8 bytes cannot have been stored; the
    PATCH would be refused by the driver.) *)
Theorem X4_patch_with_fetched_body (rt : Runtime) (id : string)
    (oid : ObjectId.t) (c : collection) (d : document) :
  ObjectId.of_str id = Some oid ->
  find (has_id (VObjectId oid)) c = Some d ->
  is_student_doc d = true ->
  fst (app_get_student id c) = JSONResponse 200 (detail_view d)
  /\ (fits_int64 (doc_age d) = true ->
      fst (app_patch_student id (detail_view d) c) = JSONResponse 204 (JDict [])
      /\ fst (app_get_student id (snd (app_patch_student id (detail_view d) c)))
         = JSONResponse 200 (detail_view d))
  /\ (fits_int64 (doc_age d) = false ->
      app_patch_student id (detail_view d) c = (ServerError OverflowError, c)).
Proof.
  intros E F S.
  split; [rewrite (app_get_student_found id oid c d E F S); reflexivity|].
  split.
  - intros A.
    destruct (patch_then_fetch id oid (detail_view d)
                (UpdateStudentModel.mk (Some (doc_name d)) (Some (doc_age d))
                   (Some (AddressModel.mk (doc_city d) (doc_country d)
                            ["city"; "country"]))
                   ["name"; "age"; "address"])
                c d eq_refl E F S A) as [P G].
    split; [exact P|]. rewrite G. reflexivity.
  - intros A.
    exact (patch_refused id oid (detail_view d)
             (UpdateStudentModel.mk (Some (doc_name d)) (Some (doc_age d))
                (Some (AddressModel.mk (doc_city d) (doc_country d)
                         ["city"; "country"]))
                ["name"; "age"; "address"])
             c eq_refl E A).
Qed.

Lemma X4_patch_with_fetched_body_witness :
  fst (app_patch_student (rt := example_runtime) jane_id jane_json [jane_doc])
  = JSONResponse 204 (JDict [])
  /\ fst (app_get_student (rt := example_runtime) jane_id
            (snd (app_patch_student (rt := example_runtime) jane_id jane_json
                    [jane_doc])))
     = JSONResponse 200 jane_json.
Proof.
  exact (proj1 (proj2 (X4_patch_with_fetched_body example_runtime jane_id jane_oid
                         [jane_doc] jane_doc eq_refl eq_refl eq_refl))
           eq_refl).
Defined.

(** ** Validation of update bodies *)

(** X5: an update body passes validation exactly when it is an object that
    has all three keys [name], [age] and [address], each with [null] or a
    value of the field's type (a string; an integer or what lax mode
    converts to one; an object with strings [city] and [country]).  A body
    that fails is answered 422 whatever the id, before the id is parsed,
    and the collection is not touched. *)
Theorem X5_update_validation (rt : Runtime) (id : string) (body : json)
    (c : collection) :
  is_valid (UpdateStudentModel.validate body) = update_shape body
  /\ (update_shape body = false ->
      status_code (fst (app_patch_student id body c)) = 422
      /\ snd (app_patch_student id body c) = c).
Proof.
  split; [apply UpdateStudentModel_validate_shape|].
  intros F. rewrite <- UpdateStudentModel_validate_shape in F.
  unfold app_patch_student.
  destruct (UpdateStudentModel.validate body); [discriminate F|].
  split; reflexivity.
Qed.

(** ** Delete, and how it composes with fetch and create *)

Lemma delete_first_removes_id (oid : ObjectId.t) (c : collection) :
  unique_ids c = true ->
  existsb (has_id (VObjectId oid)) (snd (delete_first (by_id oid) c)) = false.
Proof.
  intros U. destruct (existsb (has_id (VObjectId oid)) c) eqn:X.
  - destruct (first_match_split _ _ X) as (c1 & d & c2 & -> & N & F).
    rewrite (delete_first_some (by_id oid) c1 c2 d)
      by (rewrite ?existsb_matches_by_id, ?matches_by_id; assumption).
    cbn [snd]. destruct (unique_ids_split _ _ _ _ U F) as [N1 N2].
    rewrite existsb_app, N1, N2. reflexivity.
  - rewrite (delete_first_none (by_id oid) c)
      by (rewrite existsb_matches_by_id; exact X).
    exact X.
Qed.

(** X6: after a delete, the student is gone.  With unique identifiers and
    a valid id, a fetch of the deleted id answers 404 naming the id, an
    update of it whose age fits 8 bytes answers 404 as well (one whose age
    does not is refused by the driver before the probe: 500), and a second
    delete leaves the collection as the first one left it. *)
Theorem X6_delete_then_fetch (rt : Runtime) (id : string) (oid : ObjectId.t)
    (body : json) (student : UpdateStudentModel.t) (c : collection) :
  ObjectId.of_str id = Some oid ->
  unique_ids c = true ->
  UpdateStudentModel.validate body = Valid student ->
  let c' := snd (app_delete_student id c) in
  app_get_student id c' = (JSONResponse 404 (student_not_found id), c')
  /\ (age_fits (UpdateStudentModel.age student) = true ->
      app_patch_student id body c' = (JSONResponse 404 (student_not_found id), c'))
  /\ (age_fits (UpdateStudentModel.age student) = false ->
      app_patch_student id body c' = (ServerError OverflowError, c'))
  /\ snd (app_delete_student id c') = c'.
Proof.
  intros E U V c'.
  assert (N : existsb (has_id (VObjectId oid)) c' = false).
  { unfold c'. rewrite (delete_student_run id oid c E). cbn [snd].
    exact (delete_first_removes_id oid c U). }
  split; [|split; [|split]].
  - unfold app_get_student. rewrite (fetch_student_not_found id oid c' E N).
    reflexivity.
  - intros A. unfold app_patch_student.
    rewrite V, (update_student_absent id oid student c' E); [reflexivity| |exact N].
    rewrite (encodable_update_set body student V). exact A.
  - exact (patch_refused id oid body student c' V E).
  - rewrite (delete_student_run id oid c' E). cbn [snd].
    rewrite (delete_first_none (by_id oid) c')
      by (rewrite existsb_matches_by_id; exact N).
    reflexivity.
Qed.

Lemma X6_delete_then_fetch_witness :
  app_get_student (rt := example_runtime) jane_id
    (snd (app_delete_student jane_id [jane_doc; rahul_doc]))
  = (JSONResponse 404 (student_not_found jane_id), [rahul_doc]).
Proof.
  exact (proj1 (X6_delete_then_fetch example_runtime jane_id jane_oid
                  (JDict [("name", JNull); ("age", JInt 23); ("address", JNull)])
                  (UpdateStudentModel.mk None (Some 23) None ["name"; "age"; "address"])
                  [jane_doc; rahul_doc] eq_refl eq_refl eq_refl)).
Defined.

(** X7: create a student whose age fits 8 bytes, then delete the id of
    the creation response: the delete answers 200 and the collection is
    back to what it was before the create. *)
Theorem X7_create_then_delete (rt : Runtime) (new_oid : ObjectId.t)
    (body : json) (student : StudentModel.t) (c : collection) :
  StudentModel.validate body = Valid student ->
  fits_int64 (StudentModel.age student) = true ->
  existsb (has_id (VObjectId new_oid)) c = false ->
  List.length (ObjectId.binary new_oid) = 12%nat ->
  exists id c',
    app_post_students new_oid body c
    = (JSONResponse 201 (JDict [("id", JStr id)]), c')
    /\ app_delete_student id c' = (JSONResponse 200 (JDict []), c).
Proof.
  intros V A N L.
  exists (ObjectId.to_str new_oid), (c ++ [student_doc new_oid student]).
  split.
  - unfold app_post_students.
    rewrite V, (create_student_run new_oid student c N A). reflexivity.
  - rewrite (delete_student_run _ new_oid _ (of_str_to_str new_oid L)).
    rewrite (delete_first_some (by_id new_oid) c [] (student_doc new_oid student)).
    + cbn [fst snd deleted_count Z.eqb]. rewrite app_nil_r. reflexivity.
    + rewrite existsb_matches_by_id. exact N.
    + rewrite matches_by_id. apply has_id_student_doc.
Qed.

Lemma X7_create_then_delete_witness :
  exists id c',
    app_post_students (rt := example_runtime) jane_oid jane_json [rahul_doc]
    = (JSONResponse 201 (JDict [("id", JStr id)]), c')
    /\ app_delete_student id c' = (JSONResponse 200 (JDict []), [rahul_doc]).
Proof.
  exact (X7_create_then_delete example_runtime jane_oid jane_json jane
           [rahul_doc] eq_refl eq_refl eq_refl eq_refl).
Defined.

(** ** Operations on one student leave the others alone *)

Lemma app_get_student_run {rt : Runtime} (id : string) (oid : ObjectId.t)
    (c : collection) :
  ObjectId.of_str id = Some oid ->
  app_get_student id c = (fetch_response id (find (has_id (VObjectId oid)) c), c).
Proof.
  intros E. unfold app_get_student, fetch_student, bind.
  rewrite (ObjectId_valid id oid c E). fold (by_id oid). rewrite find_one_by_id.
  destruct (find (has_id (VObjectId oid)) c) as [d|]; [|reflexivity].
  cbn [option_map]. unfold respond, fetch_response, ret. cbn [fst snd].
  destruct (GetSingleStudentResponse.from_value _); reflexivity.
Qed.

Lemma has_id_other (oid oid' : ObjectId.t) (d : document) :
  has_id (VObjectId oid) d = true -> oid <> oid' ->
  has_id (VObjectId oid') d = false.
Proof.
  intros F N. destruct (has_id (VObjectId oid') d) eqn:F'; [|reflexivity].
  apply has_id_doc_id in F. apply has_id_doc_id in F'.
  rewrite F in F'. inversion F'. contradiction.
Qed.

Lemma find_after_delete (oid oid' : ObjectId.t) (c : collection) :
  oid <> oid' ->
  find (has_id (VObjectId oid')) (snd (delete_first (by_id oid) c))
  = find (has_id (VObjectId oid')) c.
Proof.
  intros N. induction c as [|d c IH]; cbn [delete_first snd find]; [reflexivity|].
  rewrite matches_by_id. destruct (has_id (VObjectId oid) d) eqn:F; cbn [snd find].
  - rewrite (has_id_other oid oid' d F N). reflexivity.
  - rewrite IH. reflexivity.
Qed.

Lemma find_after_update (oid oid' : ObjectId.t) (student : UpdateStudentModel.t)
    (c : collection) :
  oid <> oid' ->
  find (has_id (VObjectId oid'))
    (snd (update_first (by_id oid) (update_set student) c))
  = find (has_id (VObjectId oid')) c.
Proof.
  intros N. induction c as [|d c IH]; cbn [update_first snd find]; [reflexivity|].
  rewrite matches_by_id. destruct (has_id (VObjectId oid) d) eqn:F; cbn [snd find].
  - rewrite has_id_apply_set, (has_id_other oid oid' d F N). reflexivity.
  - rewrite IH. reflexivity.
Qed.

Lemma find_after_append {A} (f : A -> bool) (l : list A) (a : A) :
  f a = false -> find f (l ++ [a]) = find f l.
Proof.
  intros F. induction l as [|b l IH]; cbn [app find].
  - rewrite F. reflexivity.
  - destruct (f b); [reflexivity | exact IH].
Qed.

(** X8: what a fetch of one student answers is not changed by a delete or
    an update addressed to another identifier (or to an id that does not
    parse), nor by the creation of a student under another identifier. *)
Theorem X8_other_students_are_untouched (rt : Runtime) (id id' : string)
    (oid' new_oid : ObjectId.t) (body : json) (c : collection) :
  ObjectId.of_str id' = Some oid' ->
  (ObjectId.of_str id <> Some oid' ->
   fst (app_get_student id' (snd (app_delete_student id c)))
   = fst (app_get_student id' c)
   /\ fst (app_get_student id' (snd (app_patch_student id body c)))
      = fst (app_get_student id' c))
  /\ (new_oid <> oid' ->
      fst (app_get_student id' (snd (app_post_students new_oid body c)))
      = fst (app_get_student id' c)).
Proof.
  intros E'.
  assert (G : forall c1 c2,
             find (has_id (VObjectId oid')) c1 = find (has_id (VObjectId oid')) c2 ->
             fst (app_get_student id' c1) = fst (app_get_student id' c2)).
  { intros c1 c2 F. rewrite !(app_get_student_run id' oid' _ E'). cbn [fst].
    rewrite F. reflexivity. }
  split.
  - intros N. split; apply G.
    + destruct (delete_student_collection id c) as [->|(oid & D)]; [reflexivity|].
      rewrite D.
      destruct (ObjectId.of_str id) as [o|] eqn:E.
      * rewrite (delete_student_run id o c E) in D. cbn [snd] in D.
        rewrite <- D. apply find_after_delete. intros ->. contradiction N. reflexivity.
      * unfold app_delete_student, delete_student, bind in D.
        rewrite (ObjectId_invalid id c E) in D. cbn [snd respond] in D.
        rewrite <- D. reflexivity.
    + unfold app_patch_student.
      destruct (UpdateStudentModel.validate body) as [student|]; [|reflexivity].
      unfold respond. cbn [snd].
      destruct (ObjectId.of_str id) as [o|] eqn:E.
      * rewrite (update_student_run id o student c E).
        destruct (0 <? List.length (update_set student))%nat; [|reflexivity].
        destruct (encodable (VDict (update_set student))); [|reflexivity].
        cbv zeta.
        destruct (modified_count (fst (update_first (by_id o) (update_set student) c)) =? 1);
          cbn [snd]; apply find_after_update; intros ->; contradiction N; reflexivity.
      * rewrite (update_student_invalid id student c E). reflexivity.
  - intros N. apply G.
    destruct (post_students_collection new_oid body c)
      as [->|(student & _ & _ & ->)]; [reflexivity|].
    apply find_after_append.
    apply (has_id_other new_oid oid' _ (has_id_student_doc new_oid student) N).
Qed.

Lemma X8_other_students_are_untouched_witness :
  fst (app_get_student (rt := example_runtime) jane_id
         (snd (app_delete_student "654f1a2b3c4d5e6f70819204" [jane_doc; rahul_doc])))
  = JSONResponse 200 jane_json.
Proof.
  exact (proj1 (proj1 (X8_other_students_are_untouched example_runtime
                         "654f1a2b3c4d5e6f70819204" jane_id jane_oid jane_oid
                         JNull [jane_doc; rahul_doc] eq_refl)
                  ltac:(discriminate))).
Defined.

(** ** Create, then list *)

(** X9: a student that has just been created (its age fits 8 bytes) shows
    up in a list request (whose age filter fits 8 bytes) exactly as its
    filters say.  When the new student does not pass the filters, the list
    is what it was before the create; when it does, and fewer than 1000
    stored records pass them, its name and age are in the list. *)
Theorem X9_create_then_list (rt : Runtime) (new_oid : ObjectId.t)
    (body : json) (student : StudentModel.t) (country : option string)
    (age : option Z) (c : collection) :
  StudentModel.validate body = Valid student ->
  fits_int64 (StudentModel.age student) = true ->
  age_fits age = true ->
  existsb (has_id (VObjectId new_oid)) c = false ->
  student_collection_ok c = true ->
  let c' := snd (app_post_students new_oid body c) in
  (selected country age (student_doc new_oid student) = false ->
   fst (list_students country age c') = fst (list_students country age c))
  /\ (selected country age (student_doc new_oid student) = true ->
      (List.length (filter (selected country age) c) < 1000)%nat ->
      exists r,
        list_students country age c' = (Ok r, c')
        /\ In (ListResponseStudent.mk (StudentModel.name student)
                 (StudentModel.age student))
              (StudentCollection.data r)).
Proof.
  intros V A Q N S c'.
  assert (C : c' = c ++ [student_doc new_oid student]).
  { unfold c', app_post_students.
    rewrite V, (create_student_run new_oid student c N A). reflexivity. }
  assert (S' : student_collection_ok c' = true).
  { rewrite C. apply forallb_app_one; [exact S | reflexivity]. }
  rewrite (list_students_run country age c' S' Q),
    (list_students_run country age c S Q).
  rewrite C, filter_app. cbn [filter fst]. split.
  - intros ->. rewrite app_nil_r. reflexivity.
  - intros -> L. eexists. split; [reflexivity|]. cbn [StudentCollection.data].
    rewrite firstn_all2 by (rewrite length_app; cbn [List.length]; lia).
    rewrite map_app. apply in_or_app. right. left. reflexivity.
Qed.

Lemma X9_create_then_list_witness :
  exists r,
    list_students (rt := example_runtime) (Some "India") (Some 21)
      (snd (app_post_students (rt := example_runtime) jane_oid jane_json [rahul_doc]))
    = (Ok r, snd (app_post_students (rt := example_runtime) jane_oid jane_json [rahul_doc]))
    /\ In (ListResponseStudent.mk "Jane Doe" 22) (StudentCollection.data r).
Proof.
  refine (proj2 (X9_create_then_list example_runtime jane_oid jane_json jane
                   (Some "India") (Some 21) [rahul_doc] eq_refl eq_refl eq_refl
                   eq_refl eq_refl)
            eq_refl _).
  cbn. lia.
Defined.

(** ** The identifier in the path *)

(** X10: the handlers use the path parameter only through the identifier
    it parses to, except in the 404 message.  Two spellings of one
    identifier (upper and lower case digits, say) delete the same document,
    write the same update, and fetch the same document, with the same
    status codes. *)
Theorem X10_spellings_of_one_identifier (rt : Runtime) (id1 id2 : string)
    (oid : ObjectId.t) (body : json) (c : collection) :
  ObjectId.of_str id1 = Some oid ->
  ObjectId.of_str id2 = Some oid ->
  (snd (app_delete_student id1 c) = snd (app_delete_student id2 c)
   /\ status_code (fst (app_delete_student id1 c))
      = status_code (fst (app_delete_student id2 c)))
  /\ (snd (app_patch_student id1 body c) = snd (app_patch_student id2 body c)
      /\ status_code (fst (app_patch_student id1 body c))
         = status_code (fst (app_patch_student id2 body c)))
  /\ (status_code (fst (app_get_student id1 c))
      = status_code (fst (app_get_student id2 c))
      /\ (existsb (has_id (VObjectId oid)) c = true ->
          fst (app_get_student id1 c) = fst (app_get_student id2 c))).
Proof.
  intros E1 E2. split; [|split].
  - rewrite (delete_student_run id1 oid c E1), (delete_student_run id2 oid c E2).
    cbn [fst snd]. split; [reflexivity|].
    destruct (deleted_count (fst (delete_first (by_id oid) c)) =? 1); reflexivity.
  - unfold app_patch_student.
    destruct (UpdateStudentModel.validate body) as [student|]; [|split; reflexivity].
    unfold respond. cbn [fst snd].
    rewrite (update_student_run id1 oid student c E1),
      (update_student_run id2 oid student c E2).
    unfold probe_outcome.
    destruct (0 <? List.length (update_set student))%nat; cbv zeta;
      [destruct (encodable (VDict (update_set student))); [|split; reflexivity];
       destruct (modified_count (fst (update_first (by_id oid) (update_set student) c)) =? 1)|];
      cbn [fst snd];
      try (split; reflexivity);
      match goal with
      | |- context [existsb ?f ?l] => destruct (existsb f l)
      end; split; reflexivity.
  - rewrite (app_get_student_run id1 oid c E1), (app_get_student_run id2 oid c E2).
    cbn [fst]. unfold fetch_response.
    destruct (find (has_id (VObjectId oid)) c) as [d|] eqn:F.
    + split; [|reflexivity].
      destruct (GetSingleStudentResponse.from_value _); reflexivity.
    + split; [reflexivity|]. intros X.
      apply first_match_split in X. destruct X as (l1 & a & l2 & -> & N & Fa).
      rewrite (find_first _ l1 l2 a N Fa) in F. discriminate F.
Qed.

Lemma X10_spellings_of_one_identifier_witness :
  snd (app_delete_student "654F1A2B3C4D5E6F70819203" [jane_doc; rahul_doc])
  = snd (app_delete_student jane_id [jane_doc; rahul_doc]).
Proof.
  exact (proj1 (proj1 (X10_spellings_of_one_identifier example_runtime
                         "654F1A2B3C4D5E6F70819203" jane_id jane_oid JNull
                         [jane_doc; rahul_doc] eq_refl eq_refl))).
Defined.

(** ** The state of the collection under the routes *)

Lemma routes_preserve_student_collection_witness :
  student_collection_ok
    (snd (app_patch_student (rt := example_runtime) jane_id
            (JDict [("name", JStr "Jane"); ("age", JStr "23"); ("address", JNull)])
            [jane_doc; rahul_doc])) = true
  /\ unique_ids (snd (app_delete_student jane_id [jane_doc; rahul_doc])) = true.
Proof.
  pose proof (routes_preserve_student_collection example_runtime
                [jane_doc; rahul_doc] eq_refl eq_refl) as (_ & P & D & _).
  split; [exact (proj1 (P _ _)) | exact (proj2 (D _))].
Defined.

(** ** Documents that are not student documents *)

Lemma validate_items_fails {rt : Runtime} (l : list document) (d : document) :
  In d l -> ListResponseStudent.from_value (VDict d) = None ->
  StudentCollection.validate_items l = None.
Proof.
  induction l as [|b l IH]; cbn [In StudentCollection.validate_items]; [contradiction|].
  intros [->|I] F.
  - rewrite F. reflexivity.
  - rewrite (IH I F). destruct (ListResponseStudent.from_value (VDict b)); reflexivity.
Qed.

(** X12: the response models are enforced on what the store returns.  A
    stored document without a [name] among the documents a list request
    selects (within the first 1000) makes the whole request fail with a
    server error: the validation error of the response model, or, when the
    age filter does not fit 8 bytes, the overflow error of the query, which
    comes first.  A fetch of such a document fails with a server error too;
    the collection is not changed. *)
Theorem X12_document_without_name (rt : Runtime) (country : option string)
    (age : option Z) (id : string) (oid : ObjectId.t) (c : collection)
    (d : document) :
  Dict.get "name" d = None ->
  (In d (firstn 1000 (filter (matches (list_query country age)) c)) ->
   list_students country age c
   = (Raise (if age_fits age then ValidationError else OverflowError), c)
   /\ (age = None ->
       app_get_students country None c = (ServerError ValidationError, c))
   /\ (forall s n, age = Some n -> str_as_int s = Some n ->
       app_get_students country (Some s) c
       = (ServerError (if fits_int64 n then ValidationError else OverflowError),
          c)))
  /\ (ObjectId.of_str id = Some oid ->
      find (has_id (VObjectId oid)) c = Some d ->
      app_get_student id c = (ServerError ResponseValidationError, c)).
Proof.
  intros G. split.
  - intros I.
    assert (L : list_students country age c
                = (Raise (if age_fits age then ValidationError else OverflowError),
                   c)).
    { rewrite list_students_unfold.
      destruct (age_fits age); [|reflexivity].
      unfold StudentCollection.new.
      rewrite (validate_items_fails _ (project list_projection d)); [reflexivity| |].
      - rewrite firstn_map. apply in_map. exact I.
      - unfold ListResponseStudent.from_value, required_value.
        rewrite get_project. cbn. rewrite G. reflexivity. }
    split; [exact L|]. split.
    + intros ->. unfold app_get_students. rewrite L. reflexivity.
    + intros s n -> P. unfold app_get_students. rewrite P, L.
      cbn [age_fits]. destruct (fits_int64 n); reflexivity.
  - intros E F. rewrite (app_get_student_run id oid c E), F.
    unfold fetch_response, GetSingleStudentResponse.from_value, required_value.
    rewrite get_project. cbn. rewrite G. reflexivity.
Qed.

Lemma X12_document_without_name_witness :
  app_get_student (rt := example_runtime) jane_id
    [[("_id", VObjectId jane_oid); ("age", VInt 22)]]
  = (ServerError ResponseValidationError,
     [[("_id", VObjectId jane_oid); ("age", VInt 22)]])
  /\ app_get_students (rt := example_runtime) None None
       [jane_doc; [("_id", VObjectId jane_oid); ("age", VInt 22)]]
     = (ServerError ValidationError,
        [jane_doc; [("_id", VObjectId jane_oid); ("age", VInt 22)]]).
Proof.
  split.
  - exact (proj2 (X12_document_without_name example_runtime None None jane_id
                    jane_oid [[("_id", VObjectId jane_oid); ("age", VInt 22)]]
                    [("_id", VObjectId jane_oid); ("age", VInt 22)] eq_refl)
             eq_refl eq_refl).
  - refine (proj1 (proj2 (proj1 (X12_document_without_name example_runtime None
                                   None jane_id jane_oid
                                   [jane_doc; [("_id", VObjectId jane_oid); ("age", VInt 22)]]
                                   [("_id", VObjectId jane_oid); ("age", VInt 22)] eq_refl)
                            _)) eq_refl).
    cbn. right. left. reflexivity.
Defined.
